(** * stock_scanner.py: a shallow embedding and its properties

    The program is one Python module: a [StockScanner] class (quota gate,
    bounded API caller, candidate scan, enrichment) and the module-level
    functions [send_whatsapp] and [main].

    Modelling conventions.
    - A Python [str] is a list of Unicode code points, so that [len] and
      slicing count what Python counts.
    - A Python [int] is a [Z]; a Python [float] is an IEEE-754 binary64
      value, represented by the Standard Library's [spec_float] and
      computed with its correctly rounded operations at precision 53 and
      maximal exponent 1024.  The binary64 values are the [spec_float]s
      that satisfy [valid_binary 53 1024]; the statements below hold for
      every [spec_float].
    - Values parsed from JSON (and the dictionaries of the metadata
      provider) are the inductive [pyval].
    - A computation that may raise returns a [result]; a computation that
      also touches the scanner object or the outside world is a function
      of the state [World], which it returns even when it raises.
    - The outside world (HTTP, the metadata provider, the messaging
      provider, the process environment, the clock) and the text rendering
      of values ([str], [format]) are the fields of an [Env] record.
    - Console output ([print]) is not modelled: it carries no value back
      into the program. *)

From Stdlib Require Import ZArith List Bool Lia String Ascii DecimalString.
From Stdlib Require Import SpecFloat.
Import ListNotations.
Local Open Scope Z_scope.
Set Warnings "-register-all".

(* ================================================================= *)
(** ** Strings *)

Definition pystr : Type := list N.

(** An ASCII literal as a Python string. *)
Definition lit (s : string) : pystr := map N_of_ascii (list_ascii_of_string s).

Definition nl : pystr := [10%N].

Definition pystr_eqb (a b : pystr) : bool :=
  if list_eq_dec N.eq_dec a b then true else false.

Fixpoint is_prefix (p s : pystr) : bool :=
  match p, s with
  | [], _ => true
  | _ :: _, [] => false
  | a :: p', b :: s' => (a =? b)%N && is_prefix p' s'
  end.

(** [sub in s] on strings. *)
Fixpoint is_substring (sub s : pystr) : bool :=
  is_prefix sub s ||
  match s with
  | [] => false
  | _ :: s' => is_substring sub s'
  end.

(** [str(n)] for an [int]. *)
Definition str_of_int (z : Z) : pystr := lit (NilEmpty.string_of_int (Z.to_int z)).

(* ================================================================= *)
(** ** Exceptions and results *)

(** The exception classes the program raises, catches or can meet.  All of
    them are subclasses of [Exception].  The built-in errors raised by the
    interpreter carry no message here: their text is only ever printed. *)
Inductive exn : Type :=
| Exception_ (msg : pystr)          (* [raise Exception(msg)] *)
| RequestException (msg : pystr)    (* requests.exceptions.RequestException and its subclasses *)
| TypeError
| ValueError
| AttributeError
| KeyError
| OverflowError
| ZeroDivisionError
| LibraryError (msg : pystr).       (* any other exception raised by a library *)

Inductive result (A : Type) : Type :=
| Ok (a : A)
| Raise (e : exn).
Arguments Ok {A} a.
Arguments Raise {A} e.

Definition rbind {A B} (r : result A) (k : A -> result B) : result B :=
  match r with
  | Ok a => k a
  | Raise e => Raise e
  end.

Declare Scope result_scope.
Delimit Scope result_scope with result.
Notation "x <~ c ; k" := (rbind c (fun x => k))
  (at level 100, c at next level, right associativity) : result_scope.

(** [str(e)]. *)
Definition exn_str (e : exn) : pystr :=
  match e with
  | Exception_ m | RequestException m | LibraryError m => m
  | _ => []
  end.

Definition is_RequestException (e : exn) : bool :=
  match e with RequestException _ => true | _ => false end.

(** [except (ValueError, TypeError)]. *)
Definition is_ValueError_or_TypeError (e : exn) : bool :=
  match e with ValueError | TypeError => true | _ => false end.

(* ================================================================= *)
(** ** Floats *)

Definition float : Type := spec_float.

Definition fmul : float -> float -> float := SFmul 53 1024.
Definition fsub : float -> float -> float := SFsub 53 1024.
Definition fdiv : float -> float -> float := SFdiv 53 1024.

(** The integer [z] as an exact, not yet rounded, binary number. *)
Definition SFint (s : bool) (n : Z) : float :=
  match n with
  | Z0 => S754_zero s
  | Zpos p => S754_finite s p 0
  | Zneg p => S754_finite (negb s) p 0
  end.

(** The nearest binary64 value to an integer (ties to even); an infinity
    when the integer is too large. *)
Definition Z2SF (z : Z) : float := binary_normalize 53 1024 z 0 false.

(** The decimal literal [n / 10^k], as the Python parser reads it: the
    nearest binary64 value. *)
Definition dec (n : Z) (k : Z) : float := fdiv (SFint false n) (SFint false (10 ^ k)).

Definition is_zero (f : float) : bool :=
  match f with S754_zero _ => true | _ => false end.

Definition is_inf (f : float) : bool :=
  match f with S754_infinity _ => true | _ => false end.

(** [PyLong_AsDouble]: int to float, [OverflowError] when too large. *)
Definition float_of_int (z : Z) : result float :=
  let f := Z2SF z in
  if is_inf f then Raise OverflowError else Ok f.

(** Exact comparison of a float with an integer, as [float_richcompare]
    does it; [None] for a NaN. *)
Definition float_cmp_int (f : float) (z : Z) : option comparison :=
  match f with
  | S754_nan => None
  | S754_infinity s => Some (if s then Lt else Gt)
  | S754_zero _ => Some (0 ?= z)
  | S754_finite s m e =>
      let n := if s then Zneg m else Zpos m in
      Some (if 0 <=? e then (n * 2 ^ e ?= z) else (n ?= z * 2 ^ (- e)))
  end.

(** The nearest integer to [n / d] for [0 <= n] and [0 < d], ties to even. *)
Definition round_half_even (n d : Z) : Z :=
  let q := n / d in
  let r := n mod d in
  match 2 * r ?= d with
  | Lt => q
  | Gt => q + 1
  | Eq => if Z.even q then q else q + 1
  end.

(** [round(x, 2)] on a float: the exact value of [x] is rounded to two
    decimals, ties to even, and the decimal result is read back as the
    nearest binary64 value; NaN and the infinities round to themselves. *)
Definition float_round2 (x : float) : float :=
  match x with
  | S754_finite s m e =>
      let n := if 0 <=? e then round_half_even (Zpos m * 2 ^ e * 100) 1
               else round_half_even (Zpos m * 100) (2 ^ (- e)) in
      fdiv (SFint s n) (SFint false 100)
  | _ => x
  end.

(* ================================================================= *)
(** ** Values *)

Inductive pyval : Type :=
| PNone
| PBool (b : bool)
| PInt (z : Z)
| PFloat (f : float)
| PStr (s : pystr)
| PList (l : list pyval)
| PDict (d : list (pystr * pyval)).

Definition pydict : Type := list (pystr * pyval).

Fixpoint lookup (k : pystr) (d : pydict) : option pyval :=
  match d with
  | [] => None
  | (k', v) :: d' => if pystr_eqb k k' then Some v else lookup k d'
  end.

(** [d.get(k, default)] on a dict. *)
Definition dict_get (d : pydict) (k : pystr) (default : pyval) : pyval :=
  match lookup k d with
  | Some v => v
  | None => default
  end.

(** [v.get(k, default)] on any value: only a dict has the method. *)
Definition py_get (v : pyval) (k : pystr) (default : pyval) : result pyval :=
  match v with
  | PDict d => Ok (dict_get d k default)
  | _ => Raise AttributeError
  end.

(** [k in v] for a string [k]. *)
Definition py_contains (k : pystr) (v : pyval) : result bool :=
  match v with
  | PDict d => Ok (match lookup k d with Some _ => true | None => false end)
  | PList l => Ok (existsb (fun x => match x with PStr s => pystr_eqb k s | _ => false end) l)
  | PStr s => Ok (is_substring k s)
  | _ => Raise TypeError
  end.

(** [v[k]] for a string [k]. *)
Definition py_getitem (v : pyval) (k : pystr) : result pyval :=
  match v with
  | PDict d => match lookup k d with Some x => Ok x | None => Raise KeyError end
  | _ => Raise TypeError
  end.

(** [for x in v]: the elements the loop visits. *)
Definition py_iter (v : pyval) : result (list pyval) :=
  match v with
  | PList l => Ok l
  | PDict d => Ok (map (fun kv => PStr (fst kv)) d)
  | PStr s => Ok (map (fun c => PStr [c]) s)
  | _ => Raise TypeError
  end.

(** Truth value of a tested expression. *)
Definition truthy (v : pyval) : bool :=
  match v with
  | PNone => false
  | PBool b => b
  | PInt z => negb (z =? 0)
  | PFloat f => negb (is_zero f)
  | PStr s => match s with [] => false | _ => true end
  | PList l => match l with [] => false | _ => true end
  | PDict d => match d with [] => false | _ => true end
  end.

(** *** Numbers *)

Inductive num : Type :=
| NInt (z : Z)
| NFloat (f : float).

(** A [bool] is an [int]. *)
Definition as_num (v : pyval) : option num :=
  match v with
  | PBool b => Some (NInt (Z.b2z b))
  | PInt z => Some (NInt z)
  | PFloat f => Some (NFloat f)
  | _ => None
  end.

(** Three-way comparison of two numbers; [None] when a NaN is involved. *)
Definition num_compare (a b : num) : option comparison :=
  match a, b with
  | NInt x, NInt y => Some (x ?= y)
  | NFloat x, NFloat y => SFcompare x y
  | NFloat x, NInt y => float_cmp_int x y
  | NInt x, NFloat y => option_map CompOpp (float_cmp_int y x)
  end.

Definition num_leb (a b : num) : bool :=
  match num_compare a b with
  | Some Lt | Some Eq => true
  | _ => false
  end.

Definition num_ltb (a b : num) : bool :=
  match num_compare a b with
  | Some Lt => true
  | _ => false
  end.

(** [v <= n], [n <= v] and [v > n] where [n] is a number: a [TypeError]
    when [v] is not one. *)
Definition py_le (v : pyval) (n : num) : result bool :=
  match as_num v with
  | Some a => Ok (num_leb a n)
  | None => Raise TypeError
  end.

Definition py_ge (v : pyval) (n : num) : result bool :=
  match as_num v with
  | Some a => Ok (num_leb n a)
  | None => Raise TypeError
  end.

Definition py_gt (v : pyval) (n : num) : result bool :=
  match as_num v with
  | Some a => Ok (num_ltb n a)
  | None => Raise TypeError
  end.

(** Conversion of an operand of a float operation. *)
Definition to_float (a : num) : result float :=
  match a with
  | NInt z => float_of_int z
  | NFloat f => Ok f
  end.

(** [v op w] where one operand is known to be a float, so that the float
    slot runs: both operands are converted, then the operation applies. *)
Definition float_binop (op : float -> float -> float) (v w : pyval) : result float :=
  match as_num v, as_num w with
  | Some a, Some b =>
      (x <~ to_float a ; y <~ to_float b ; Ok (op x y))%result
  | _, _ => Raise TypeError
  end.

(** [v / w]: true division. *)
Definition py_truediv (v w : pyval) : result float :=
  match as_num v, as_num w with
  | Some (NInt a), Some (NInt b) =>
      if b =? 0 then Raise ZeroDivisionError
      else
        let q := fdiv (SFint false a) (SFint false b) in
        if is_inf q then Raise OverflowError else Ok q
  | Some a, Some b =>
      (x <~ to_float a ; y <~ to_float b ;
       if is_zero y then Raise ZeroDivisionError else Ok (fdiv x y))%result
  | _, _ => Raise TypeError
  end.

(** [round(v, 2)]. *)
Definition py_round2 (v : pyval) : result pyval :=
  match v with
  | PBool b => Ok (PInt (Z.b2z b))
  | PInt z => Ok (PInt z)
  | PFloat f => Ok (PFloat (float_round2 f))
  | _ => Raise TypeError
  end.


(* ================================================================= *)
(** ** The scanner object, the world and the environment *)

(** The attributes [__init__] sets on a [StockScanner]. *)
Record StockScanner : Type := {
  api_key : pyval;
  api_calls : Z;
  max_daily_calls : Z
}.

(** What the program does to the outside world, in order. *)
Inductive event : Type :=
| EvGet (url : pystr) (timeout : option Z)        (* [requests.get(url, timeout=...)] *)
| EvSleep (secs : pyval)                          (* [time.sleep(secs)] *)
| EvTicker (symbol : pyval)                       (* [yf.Ticker(symbol).info] *)
| EvTwilio (sid token : pyval) (body : pystr) (from_ to : pyval).
                                                  (* [Client(sid, token).messages.create(...)] *)

Record World : Type := {
  self : StockScanner;
  trace : list event
}.

(** The two methods of a [requests] response the program calls. *)
Record response : Type := {
  raise_for_status : result unit;
  json : result pyval
}.

(** The collaborators.  The HTTP and metadata oracles answer by the number
    of earlier requests of their kind, so that a retry may see another
    answer than the attempt before it. *)
Record Env : Type := {
  getenv : pystr -> pyval;                              (* [os.getenv]: a str or None *)
  requests_get : nat -> pystr -> option Z -> result response;
  yf_info : nat -> pyval -> result pydict;              (* [yf.Ticker(symbol).info] *)
  twilio_create : pyval -> pyval -> pystr -> pyval -> pyval -> result pystr;
  strftime_now : pystr;                                 (* [datetime.now().strftime(...)] *)
  py_str : pyval -> pystr;                              (* [str(v)] for a float or a container *)
  format_1f : float -> pystr                            (* [format(x, '.1f')] *)
}.

Definition is_get (e : event) : bool :=
  match e with EvGet _ _ => true | _ => false end.

Definition is_ticker (e : event) : bool :=
  match e with EvTicker _ => true | _ => false end.

(** The number of HTTP requests issued so far. *)
Definition gets (t : list event) : nat := List.length (filter is_get t).

Definition tickers (t : list event) : nat := List.length (filter is_ticker t).

(* ================================================================= *)
(** ** Computations on the world *)

Definition M (A : Type) : Type := World -> result A * World.

Definition ret {A} (a : A) : M A := fun w => (Ok a, w).

Definition raise {A} (e : exn) : M A := fun w => (Raise e, w).

Definition bind {A B} (c : M A) (k : A -> M B) : M B :=
  fun w =>
    match c w with
    | (Ok a, w') => k a w'
    | (Raise e, w') => (Raise e, w')
    end.

Definition lift {A} (r : result A) : M A := fun w => (r, w).

(** [try: c  except <the classes of catches> as e: handler e]. *)
Definition try_except {A} (c : M A) (catches : exn -> bool) (handler : exn -> M A) : M A :=
  fun w =>
    match c w with
    | (Ok a, w') => (Ok a, w')
    | (Raise e, w') => if catches e then handler e w' else (Raise e, w')
    end.

(** [except Exception]: every exception of the model. *)
Definition any_Exception (e : exn) : bool := true.

Declare Scope M_scope.
Delimit Scope M_scope with M.
Notation "x <- c ;; k" := (bind c (fun x => k))
  (at level 100, c at next level, right associativity) : M_scope.
Notation "c ;; k" := (bind c (fun _ => k))
  (at level 100, right associativity) : M_scope.

Definition emit (e : event) : M unit :=
  fun w => (Ok tt, {| self := self w; trace := trace w ++ [e] |}).

Definition get_self : M StockScanner := fun w => (Ok (self w), w).

Definition set_api_calls (n : Z) : M unit :=
  fun w => (Ok tt,
            {| self := {| api_key := api_key (self w);
                          api_calls := n;
                          max_daily_calls := max_daily_calls (self w) |};
               trace := trace w |}).

Definition sleep (secs : pyval) : M unit := emit (EvSleep secs).

(* ================================================================= *)
(** ** The program *)

Section Program.

Variable E : Env.

(** [str(v)], which is also how an f-string renders [v].  The text of a
    float and of a container is left to the environment. *)
Definition render (v : pyval) : pystr :=
  match v with
  | PNone => lit "None"
  | PBool true => lit "True"
  | PBool false => lit "False"
  | PInt z => str_of_int z
  | PStr s => s
  | _ => py_str E v
  end.

(** [requests.get(url, timeout=...)]. *)
Definition http_get (url : pystr) (timeout : option Z) : M response :=
  fun w =>
    (requests_get E (gets (trace w)) url timeout,
     {| self := self w; trace := trace w ++ [EvGet url timeout] |}).

(** [yf.Ticker(symbol).info]. *)
Definition ticker_info (symbol : pyval) : M pydict :=
  fun w =>
    (yf_info E (tickers (trace w)) symbol,
     {| self := self w; trace := trace w ++ [EvTicker symbol] |}).

(** [Client(sid, token).messages.create(body=..., from_=..., to=...)]. *)
Definition twilio_send (sid token : pyval) (body : pystr) (from_ to : pyval) : M pystr :=
  fun w =>
    (twilio_create E sid token body from_ to,
     {| self := self w; trace := trace w ++ [EvTwilio sid token body from_ to] |}).

(** *** [StockScanner.__init__] *)
Definition __init__ : StockScanner :=
  {| api_key := getenv E (lit "FMP_API_KEY");
     api_calls := 0;
     max_daily_calls := 250 |}.

(** *** [StockScanner.check_api_quota] *)

Definition quota_url (s : StockScanner) : pystr :=
  lit "https://financialmodelingprep.com/api/v3/quota?apikey=" ++ render (api_key s).

Definition check_api_quota_body : M bool :=
  (s <- get_self ;;
   let url := quota_url s in
   response <- http_get url None ;;
   data <- lift (json response) ;;
   found <- lift (py_contains (lit "remainingCalls") data) ;;
   if found then
     remaining_calls <- lift (py_getitem data (lit "remainingCalls")) ;;
     lift (py_gt remaining_calls (NInt 5))
   else ret false)%M.

Definition check_api_quota : M bool :=
  try_except check_api_quota_body any_Exception (fun _ => ret false).

(** *** [StockScanner._make_api_call] *)

(** One pass through the body of the [for] loop, at index [i]:
    [Some v] when the body returns [v], [None] when the loop goes on. *)
Definition attempt (url : pystr) (retries : Z) (i : Z) : M (option pyval) :=
  try_except
    (s <- get_self ;;
     set_api_calls (api_calls s + 1) ;;
     s <- get_self ;;
     if max_daily_calls s <? api_calls s
     then raise (Exception_ (lit "Daily API call limit reached"))
     else
       response <- http_get url (Some 10) ;;
       lift (raise_for_status response) ;;
       secs <- lift (float_binop fmul (PFloat (dec 2 1)) (PInt (i + 1))) ;;
       sleep (PFloat secs) ;;
       v <- lift (json response) ;;
       ret (Some v))%M
    is_RequestException
    (fun e =>
       if i =? retries - 1
       then raise (Exception_ (lit "API call failed after " ++ str_of_int retries
                                 ++ lit " retries: " ++ exn_str e))
       else (sleep (PInt (1 * (i + 1))) ;; ret None)%M).

(** The loop [for i in range(retries)], with [fuel] passes left, and the
    [raise] that follows it. *)
Fixpoint attempts (url : pystr) (retries : Z) (fuel : nat) (i : Z) : M pyval :=
  match fuel with
  | O => raise (Exception_ (lit "API call failed with unknown error"))
  | S fuel' =>
      (r <- attempt url retries i ;;
       match r with
       | Some v => ret v
       | None => attempts url retries fuel' (i + 1)
       end)%M
  end.

Definition _make_api_call (url : pystr) (retries : Z) : M pyval :=
  attempts url retries (Z.to_nat retries) 0.

(** *** [StockScanner.get_initial_stocks] *)

(** The dict appended to [stocks_info]. *)
Record Candidate : Type := {
  symbol : pyval;
  price : pyval;
  yearLow : pyval
}.

(** The body of the inner [try], for one quote: [Some c] when [c] is
    appended. *)
Definition scan_quote (quote : pyval) : result (option Candidate) :=
  (sym <~ py_get quote (lit "symbol") (PStr []) ;
   current_price <~ py_get quote (lit "price") (PInt 0) ;
   year_low <~ py_get quote (lit "yearLow") (PInt 0) ;
   if truthy current_price then
     if truthy year_low then
       limit <~ float_binop fmul year_low (PFloat (dec 102 2)) ;
       near <~ py_le current_price (NFloat limit) ;
       if near
       then Ok (Some {| symbol := sym; price := current_price; yearLow := year_low |})
       else Ok None
     else Ok None
   else Ok None)%result.

(** The loop over the quotes with its [except (ValueError, TypeError)]. *)
Fixpoint scan_quotes (quotes : list pyval) (stocks_info : list Candidate)
  : result (list Candidate) :=
  match quotes with
  | [] => Ok stocks_info
  | quote :: rest =>
      match scan_quote quote with
      | Ok (Some c) => scan_quotes rest (stocks_info ++ [c])
      | Ok None => scan_quotes rest stocks_info
      | Raise e =>
          if is_ValueError_or_TypeError e then scan_quotes rest stocks_info
          else Raise e
      end
  end.

Definition quote_url (s : StockScanner) : pystr :=
  lit "https://financialmodelingprep.com/api/v3/quotes/nasdaq?apikey=" ++ render (api_key s).

Definition get_initial_stocks : M (list Candidate) :=
  try_except
    (s <- get_self ;;
     quotes <- _make_api_call (quote_url s) 3 ;;
     items <- lift (py_iter quotes) ;;
     lift (scan_quotes items []))%M
    any_Exception
    (fun _ => ret []).

(** *** [StockScanner.enrich_stock_data] *)

(** The dict [stock_info]. *)
Record EnrichedRecord : Type := {
  Symbol : pyval;
  Company_Name : pyval;
  Current_Price : pyval;
  Low_52_Week : pyval;
  Distance_from_Low : pystr;
  Market_Cap : pystr;
  Industry : pyval;
  Sector : pyval;
  Volume : pyval;
  Description : pystr
}.

(** [10000000 <= market_cap <= 300000000]. *)
Definition in_band (market_cap : pyval) : result bool :=
  (lo <~ py_ge market_cap (NInt 10000000) ;
   if lo then py_le market_cap (NInt 300000000) else Ok false)%result.

(** [(price / yearLow - 1) * 100], rounded to two decimals. *)
Definition distance_from_low (p yl : pyval) : result float :=
  (ratio <~ py_truediv p yl ;
   diff <~ float_binop fsub (PFloat ratio) (PInt 1) ;
   pct <~ float_binop fmul (PFloat diff) (PInt 100) ;
   Ok (float_round2 pct))%result.

(** [info.get('longBusinessSummary', 'N/A')[:200] + '...']: slicing and
    then adding a string succeeds on a string only. *)
Definition description (info : pydict) : result pystr :=
  match dict_get info (lit "longBusinessSummary") (PStr (lit "N/A")) with
  | PStr s => Ok (firstn 200 s ++ lit "...")
  | _ => Raise TypeError
  end.

(** From [market_cap_str = ...] to the end of the dict display. *)
Definition build_stock_info (stock : Candidate) (info : pydict) (market_cap : pyval)
  : result EnrichedRecord :=
  (millions <~ py_truediv market_cap (PFloat (Z2SF 1000000)) ;
   let market_cap_str := lit "$" ++ format_1f E millions ++ lit "M" in
   current <~ py_round2 (price stock) ;
   low <~ py_round2 (yearLow stock) ;
   dist <~ distance_from_low (price stock) (yearLow stock) ;
   descr <~ description info ;
   Ok {| Symbol := symbol stock;
         Company_Name := dict_get info (lit "longName") (PStr (lit "N/A"));
         Current_Price := current;
         Low_52_Week := low;
         Distance_from_Low := render (PFloat dist) ++ lit "%";
         Market_Cap := market_cap_str;
         Industry := dict_get info (lit "industry") (PStr (lit "N/A"));
         Sector := dict_get info (lit "sector") (PStr (lit "N/A"));
         Volume := dict_get info (lit "volume") (PInt 0);
         Description := descr |})%result.

(** The body of the loop for one candidate, with its [except Exception]:
    the list [enriched_stocks] after it. *)
Definition enrich_one (stock : Candidate) (enriched_stocks : list EnrichedRecord)
  : M (list EnrichedRecord) :=
  try_except
    (info <- ticker_info (symbol stock) ;;
     let market_cap := dict_get info (lit "marketCap") (PInt 0) in
     ok <- lift (in_band market_cap) ;;
     if negb ok then ret enriched_stocks
     else
       stock_info <- lift (build_stock_info stock info market_cap) ;;
       sleep (PFloat (dec 1 1)) ;;
       ret (enriched_stocks ++ [stock_info]))%M
    any_Exception
    (fun _ => ret enriched_stocks).

Fixpoint enrich_loop (stocks : list Candidate) (enriched_stocks : list EnrichedRecord)
  : M (list EnrichedRecord) :=
  match stocks with
  | [] => ret enriched_stocks
  | stock :: rest =>
      (enriched_stocks' <- enrich_one stock enriched_stocks ;;
       enrich_loop rest enriched_stocks')%M
  end.

Definition enrich_stock_data (stocks : list Candidate) : M (list EnrichedRecord) :=
  enrich_loop stocks [].

(** *** [StockScanner.scan_stocks] *)
Definition scan_stocks : M (list EnrichedRecord) :=
  (initial_stocks <- get_initial_stocks ;;
   enrich_stock_data initial_stocks)%M.

(** *** [send_whatsapp] *)

Definition MAX_MESSAGE_LENGTH : Z := 1600.

Definition header : pystr :=
  [0x1F6A8%N] ++ lit " *Small Cap Stocks at 52-Week Lows* " ++ [0x1F6A8%N] ++ nl ++ nl.

(** The five lines the loop adds for one record. *)
Definition stock_lines (stock : EnrichedRecord) : pystr :=
  lit "*" ++ render (Symbol stock) ++ lit " - " ++ render (Company_Name stock) ++ lit "*" ++ nl
  ++ [0x1F4B5%N] ++ lit " Price: $" ++ render (Current_Price stock) ++ nl
  ++ [0x1F4CA%N] ++ lit " From Low: " ++ Distance_from_Low stock ++ nl
  ++ [0x1F3E2%N] ++ lit " Industry: " ++ render (Industry stock) ++ nl
  ++ [0x1F4B0%N] ++ lit " Market Cap: " ++ Market_Cap stock ++ nl ++ nl.

Definition footer (calls : Z) : pystr :=
  lit "Generated: " ++ strftime_now E ++ nl
  ++ lit "FMP API Calls Used: " ++ str_of_int calls.

(** [message_body] as it stands before the length test. *)
Definition assembled (stocks_data : list EnrichedRecord) (calls : Z) : pystr :=
  fold_left (fun body stock => body ++ stock_lines stock) stocks_data header
  ++ footer calls.

Definition truncation_notice : pystr :=
  nl ++ nl ++ lit "(Message truncated due to length)".

(** [message_body] as it is handed to the messaging provider. *)
Definition message_body (stocks_data : list EnrichedRecord) (calls : Z) : pystr :=
  let body := assembled stocks_data calls in
  if MAX_MESSAGE_LENGTH <? Z.of_nat (List.length body)
  then firstn (Z.to_nat (MAX_MESSAGE_LENGTH - 100)) body ++ truncation_notice
  else body.

Definition send_whatsapp (stocks_data : list EnrichedRecord)
    (account_sid auth_token from_number to_number : pyval) (calls : Z) : M unit :=
  let body := message_body stocks_data calls in
  try_except
    (twilio_send (getenv E (lit "TWILIO_ACCOUNT_SID")) (getenv E (lit "TWILIO_AUTH_TOKEN"))
                 body
                 (getenv E (lit "TWILIO_FROM_NUMBER")) (getenv E (lit "TWILIO_TO_NUMBER")) ;;
     ret tt)%M
    any_Exception
    (fun _ => ret tt).

(** *** [main] *)

(** [main] once [scanner] is bound. *)
Definition main_body : M unit :=
  (quota <- check_api_quota ;;
   if negb quota then ret tt
   else
     try_except
       (stocks_at_low <- scan_stocks ;;
        match stocks_at_low with
        | [] => ret tt
        | _ :: _ =>
            s <- get_self ;;
            send_whatsapp stocks_at_low
              (getenv E (lit "TWILIO_ACCOUNT_SID")) (getenv E (lit "TWILIO_AUTH_TOKEN"))
              (getenv E (lit "TWILIO_FROM_NUMBER")) (getenv E (lit "TWILIO_TO_NUMBER"))
              (api_calls s)
        end)
       any_Exception
       (fun _ => ret tt))%M.

(** [scanner = StockScanner()], then the rest: the trace of the run, from
    the trace [t] before it. *)
Definition main (t : list event) : result unit * World :=
  main_body {| self := __init__; trace := t |}.

End Program.

(* ================================================================= *)
(** ** Vocabulary of the statements *)

(** The call counter never goes down across [c]. *)
Definition counter_monotone {A} (c : M A) : Prop :=
  forall w, api_calls (self w) <= api_calls (self (snd (c w))).

(** An attempt fails at transport level with message [m]: [requests.get]
    raises a [RequestException], or the response has an error status and
    [raise_for_status] raises one. *)
Definition transport_failure (r : result response) (m : pystr) : Prop :=
  r = Raise (RequestException m) \/
  exists resp, r = Ok resp /\ raise_for_status resp = Raise (RequestException m).

(** An attempt succeeds with the parsed value [v]. *)
Definition succeeds_with (r : result response) (v : pyval) : Prop :=
  exists resp, r = Ok resp /\ raise_for_status resp = Ok tt /\ json resp = Ok v.

Definition quota_error : exn := Exception_ (lit "Daily API call limit reached").

(** The scanner after [self.api_calls += 1], done [n] times. *)
Definition bump (n : Z) (s : StockScanner) : StockScanner :=
  {| api_key := api_key s; api_calls := api_calls s + n; max_daily_calls := max_daily_calls s |}.

(** The test of the scan on two field values: both are truthy and
    [price <= yearLow * 1.02] evaluates to [True]. *)
Definition near_year_low (p yl : pyval) : bool :=
  truthy p && truthy yl &&
  match float_binop fmul yl (PFloat (dec 102 2)) with
  | Ok limit =>
      match py_le p (NFloat limit) with
      | Ok near => near
      | Raise _ => false
      end
  | Raise _ => false
  end.

(** The three fields the scan reads from a quote object, with the
    defaults of [quote.get]. *)
Definition candidate_of (quote : pyval) : Candidate :=
  match quote with
  | PDict d =>
      {| symbol := dict_get d (lit "symbol") (PStr []);
         price := dict_get d (lit "price") (PInt 0);
         yearLow := dict_get d (lit "yearLow") (PInt 0) |}
  | _ => {| symbol := PStr []; price := PInt 0; yearLow := PInt 0 |}
  end.

Definition is_candidate (quote : pyval) : bool :=
  near_year_low (price (candidate_of quote)) (yearLow (candidate_of quote)).

(** An integer is small enough to become a float. *)
Definition convertible (v : pyval) : Prop :=
  match as_num v with
  | Some (NInt z) => is_inf (Z2SF z) = false
  | _ => True
  end.

(** A quote the scan can finish with: an object whose [yearLow], when it
    is an integer, converts to a float. *)
Definition plain_quote (quote : pyval) : Prop :=
  exists d, quote = PDict d /\ convertible (dict_get d (lit "yearLow") (PInt 0)).

(** A number greater than zero. *)
Definition positive (v : pyval) : Prop :=
  exists a, as_num v = Some a /\ num_ltb (NInt 0) a = true.

(** What one pass of the enrichment loop appends, as a function of the
    answer of the metadata lookup: the band test and the fields of the loop
    body, without the world. *)
Definition enrich_outcome (E : Env) (stock : Candidate) (answer : result pydict)
  : option EnrichedRecord :=
  match answer with
  | Ok info =>
      let market_cap := dict_get info (lit "marketCap") (PInt 0) in
      match in_band market_cap with
      | Ok true =>
          match build_stock_info E stock info market_cap with
          | Ok stock_info => Some stock_info
          | Raise _ => None
          end
      | _ => None
      end
  | Raise _ => None
  end.

Definition option_list {A} (o : option A) : list A :=
  match o with
  | Some a => [a]
  | None => []
  end.

(** What the enrichment loop appends for a list of candidates, when [k]
    metadata lookups have been made before it. *)
Fixpoint outcomes (E : Env) (k : nat) (stocks : list Candidate) : list EnrichedRecord :=
  match stocks with
  | [] => []
  | stock :: rest =>
      option_list (enrich_outcome E stock (yf_info E k (symbol stock)))
      ++ outcomes E (S k) rest
  end.

(** The delivery request the notifier makes. *)
Definition delivery (E : Env) (stocks_data : list EnrichedRecord) (calls : Z) : event :=
  EvTwilio (getenv E (lit "TWILIO_ACCOUNT_SID")) (getenv E (lit "TWILIO_AUTH_TOKEN"))
           (message_body E stocks_data calls)
           (getenv E (lit "TWILIO_FROM_NUMBER")) (getenv E (lit "TWILIO_TO_NUMBER")).

(** The delay before the next attempt. *)
Definition backoff (i : Z) : event := EvSleep (PInt (1 * (i + 1))).

(* ================================================================= *)
(** ** Sample environments and inputs *)

Module Sample.

(** A fixed-point rendering with [k] decimals of the exact value of a
    finite float, rounded half to even. *)
Definition digits_of (n : Z) (width : nat) : pystr :=
  let s := str_of_int n in
  repeat 48%N (width - List.length s) ++ s.

Definition fixed (k : nat) (f : float) : pystr :=
  match f with
  | S754_nan => lit "nan"
  | S754_infinity s => if s then lit "-inf" else lit "inf"
  | S754_zero s => (if s then lit "-" else []) ++ lit "0." ++ repeat 48%N k
  | S754_finite s m e =>
      let scale := 10 ^ Z.of_nat k in
      let n := if 0 <=? e then Zpos m * 2 ^ e * scale
               else round_half_even (Zpos m * scale) (2 ^ (- e)) in
      (if s then lit "-" else []) ++ str_of_int (n / scale) ++ lit "."
        ++ digits_of (n mod scale) k
  end.

(** Text of a float that has at most two decimals: one decimal is kept
    when the second is zero, as [repr] does. *)
Definition short_float (f : float) : pystr :=
  let two := fixed 2 f in
  match rev two with
  | 48%N :: rest => rev rest
  | _ => two
  end.

Definition str_sample (v : pyval) : pystr :=
  match v with
  | PFloat f => short_float f
  | _ => lit "[...]"
  end.

Definition ok_response (v : pyval) : response :=
  {| raise_for_status := Ok tt; json := Ok v |}.

Definition quote (sym : string) (p yl : pyval) : pyval :=
  PDict [(lit "symbol", PStr (lit sym)); (lit "price", p); (lit "yearLow", yl)].

(** The two quotes of the end-to-end scenario, and one with a negative
    price. *)
Definition abc : pyval := quote "ABC" (PFloat (dec 99 1)) (PFloat (dec 100 1)).
Definition xyz : pyval := quote "XYZ" (PInt 50) (PFloat (dec 100 1)).
Definition neg : pyval := quote "NEG" (PFloat (dec (-10) 1)) (PFloat (dec 100 1)).

Definition snapshot : pyval := PList [abc; xyz].

Definition info_abc : pydict :=
  [(lit "marketCap", PInt 50000000); (lit "longName", PStr (lit "ABC Corp"));
   (lit "industry", PStr (lit "Software")); (lit "sector", PStr (lit "Technology"));
   (lit "volume", PInt 12345);
   (lit "longBusinessSummary", PStr (lit "ABC Corp makes software."))].

(** The same metadata without a business summary, and with a null one. *)
Definition info_no_summary : pydict :=
  [(lit "marketCap", PInt 50000000); (lit "longName", PStr (lit "ABC Corp"));
   (lit "industry", PStr (lit "Software")); (lit "sector", PStr (lit "Technology"));
   (lit "volume", PInt 12345)].

Definition info_null_summary : pydict :=
  info_no_summary ++ [(lit "longBusinessSummary", PNone)].

Definition creds (name : pystr) : pyval :=
  if pystr_eqb name (lit "FMP_API_KEY") then PStr (lit "demo")
  else if pystr_eqb name (lit "TWILIO_ACCOUNT_SID") then PStr (lit "AC00")
  else if pystr_eqb name (lit "TWILIO_AUTH_TOKEN") then PStr (lit "secret")
  else if pystr_eqb name (lit "TWILIO_FROM_NUMBER") then PStr (lit "whatsapp:+100")
  else if pystr_eqb name (lit "TWILIO_TO_NUMBER") then PStr (lit "whatsapp:+200")
  else PNone.

(** Every request succeeds: the quota endpoint reports 200 calls, the
    snapshot is [snap], and every metadata lookup answers [info]. *)
Definition env_with (snap : pyval) (info : result pydict) : Env :=
  {| getenv := creds;
     requests_get := fun _ url _ =>
       if is_substring (lit "/quota?") url
       then Ok (ok_response (PDict [(lit "remainingCalls", PInt 200)]))
       else Ok (ok_response snap);
     yf_info := fun _ _ => info;
     twilio_create := fun _ _ _ _ _ => Ok (lit "SM01");
     strftime_now := lit "2024-01-02 03:04:05";
     py_str := str_sample;
     format_1f := fixed 1 |}.

Definition env_up : Env := env_with snapshot (Ok info_abc).

(** The first two requests time out, the third succeeds. *)
Definition env_flaky : Env :=
  {| getenv := creds;
     requests_get := fun k _ _ =>
       if (k <? 2)%nat then Raise (RequestException (lit "timed out"))
       else Ok (ok_response snapshot);
     yf_info := fun _ _ => Ok info_abc;
     twilio_create := fun _ _ _ _ _ => Ok (lit "SM01");
     strftime_now := lit "2024-01-02 03:04:05";
     py_str := str_sample;
     format_1f := fixed 1 |}.

(** Every request times out. *)
Definition env_down : Env :=
  {| getenv := creds;
     requests_get := fun _ _ _ => Raise (RequestException (lit "timed out"));
     yf_info := fun _ _ => Raise (LibraryError (lit "no data"));
     twilio_create := fun _ _ _ _ _ => Raise (LibraryError (lit "unreachable"));
     strftime_now := lit "2024-01-02 03:04:05";
     py_str := str_sample;
     format_1f := fixed 1 |}.

(** The record of the end-to-end scenario, as the enricher builds it. *)
Definition record_abc : EnrichedRecord :=
  {| Symbol := PStr (lit "ABC");
     Company_Name := PStr (lit "ABC Corp");
     Current_Price := PFloat (dec 99 1);
     Low_52_Week := PFloat (dec 100 1);
     Distance_from_Low := lit "-1.0%";
     Market_Cap := lit "$50.0M";
     Industry := PStr (lit "Software");
     Sector := PStr (lit "Technology");
     Volume := PInt 12345;
     Description := lit "ABC Corp makes software...." |}.

Definition scanner (calls : Z) : StockScanner :=
  {| api_key := PStr (lit "demo"); api_calls := calls; max_daily_calls := 250 |}.

Definition world (calls : Z) : World := {| self := scanner calls; trace := [] |}.

Definition url : pystr := quote_url env_up (scanner 0).

End Sample.

(* ================================================================= *)
(** ** Vocabulary of the further statements *)

Definition is_sleep (e : event) : bool :=
  match e with EvSleep _ => true | _ => false end.

Definition is_twilio (e : event) : bool :=
  match e with EvTwilio _ _ _ _ _ => true | _ => false end.

(** [l1] is [l2] with some elements left out, the order kept. *)
Inductive subseq {A : Type} : list A -> list A -> Prop :=
| subseq_nil : subseq [] []
| subseq_skip x l1 l2 : subseq l1 l2 -> subseq l1 (x :: l2)
| subseq_take x l1 l2 : subseq l1 l2 -> subseq (x :: l1) (x :: l2).

(** The events of the enrichment loop over [stocks], when [k] metadata
    lookups have been made before it: one lookup per candidate, and the
    pause after each record. *)
Fixpoint enrich_events (E : Env) (k : nat) (stocks : list Candidate) : list event :=
  match stocks with
  | [] => []
  | stock :: rest =>
      EvTicker (symbol stock)
      :: match enrich_outcome E stock (yf_info E k (symbol stock)) with
         | Some _ => [EvSleep (PFloat (dec 1 1))]
         | None => []
         end
      ++ enrich_events E (S k) rest
  end.

(** The error raised when the loop of the caller runs out. *)
Definition unknown_error : exn := Exception_ (lit "API call failed with unknown error").

(** An event of the HTTP layer: a request or a pause. *)
Definition net_event (e : event) : bool := is_get e || is_sleep e.

(* ================================================================= *)
(** ** Further sample environments *)

Module Cases.

(** The provider answers every request with a body that is not JSON:
    [response.json()] raises a [ValueError]. *)
Definition env_bad_json : Env :=
  {| getenv := Sample.creds;
     requests_get := fun _ _ _ =>
       Ok {| raise_for_status := Ok tt; json := Raise ValueError |};
     yf_info := fun _ _ => Ok Sample.info_abc;
     twilio_create := fun _ _ _ _ _ => Ok (lit "SM01");
     strftime_now := lit "2024-01-02 03:04:05";
     py_str := Sample.str_sample;
     format_1f := Sample.fixed 1 |}.

(** The error object the market-data provider sends for a bad key. *)
Definition error_object : pyval :=
  PDict [(lit "Error Message", PStr (lit "Invalid API KEY."))].

Definition env_error_object : Env := Sample.env_with error_object (Ok Sample.info_abc).

(** The world after the snapshot request of the sample run. *)
Definition after_snapshot : World :=
  snd (_make_api_call Sample.env_up Sample.url 3 (Sample.world 0)).

End Cases.

(* ================================================================= *)
(** ** Integers that convert to a float *)

Lemma digits2_pos_iter_xO p k :
  digits2_pos (Pos.iter xO p k) = (digits2_pos p + k)%positive.
Proof.
  induction k as [|k IH] using Pos.peano_ind.
  - cbn. lia.
  - rewrite Pos.iter_succ. cbn [digits2_pos]. rewrite IH. lia.
Qed.

Lemma binary_round_aux_canonical s m e :
  Zpos (digits2_pos m) = 53 -> -1074 <= e <= 971 ->
  binary_round_aux 53 1024 s (Zpos m) e loc_Exact = S754_finite s m e.
Proof.
  intros Hd He. unfold binary_round_aux, shr_fexp, fexp, emin.
  cbn [Zdigits2 shr_record_of_loc]. rewrite Hd.
  replace (Z.max (53 + e - 53) (3 - 1024 - 53) - e) with 0 by lia.
  cbn [shr shr_m loc_of_shr_record round_nearest_even Zdigits2 shr_record_of_loc].
  rewrite Hd.
  replace (Z.max (53 + e - 53) (3 - 1024 - 53) - e) with 0 by lia.
  cbn [shr shr_m].
  replace (e <=? 1024 - 53) with true by (symmetry; apply Z.leb_le; lia).
  reflexivity.
Qed.

Lemma binary_round_small s p :
  Zpos (digits2_pos p) <= 53 ->
  exists m e, binary_round 53 1024 s p 0 = S754_finite s m e.
Proof.
  intros Hd. unfold binary_round, fexp, emin, shl_align.
  replace (Z.max (Zpos (digits2_pos p) + 0 - 53) (3 - 1024 - 53))
    with (Zpos (digits2_pos p) - 53) by lia.
  destruct (Zpos (digits2_pos p) - 53 - 0) as [|k|k] eqn:Hk; try lia.
  - eexists _, _. apply binary_round_aux_canonical; lia.
  - eexists _, _. apply binary_round_aux_canonical.
    + rewrite digits2_pos_iter_xO. lia.
    + lia.
Qed.

Lemma digits2_pos_size p : digits2_pos p = Pos.size p.
Proof.
  induction p as [q IH|q IH|]; cbn [digits2_pos Pos.size]; rewrite ?IH; reflexivity.
Qed.

Lemma digits2_pos_bound p : Zpos p < 2 ^ 53 -> Zpos (digits2_pos p) <= 53.
Proof.
  intros Hp. rewrite digits2_pos_size.
  destruct (Z_le_gt_dec (Zpos (Pos.size p)) 53) as [H|H]; [exact H|exfalso].
  pose proof (Pos.size_le p) as Hle.
  apply Pos2Z.pos_le_pos in Hle. rewrite Pos2Z.inj_pow in Hle.
  change (Zpos p~0) with (2 * Zpos p) in Hle.
  assert (H54 : 2 ^ 54 <= 2 ^ Zpos (Pos.size p)) by (apply Z.pow_le_mono_r; lia).
  change (2 ^ 54) with (2 * 2 ^ 53) in H54. lia.
Qed.

(** An integer below [2^53] in magnitude converts to a float. *)
Lemma Z2SF_small z : - 2 ^ 53 < z < 2 ^ 53 -> is_inf (Z2SF z) = false.
Proof.
  intros Hz. unfold Z2SF, binary_normalize.
  destruct z as [|p|p]; [reflexivity| |].
  - destruct (binary_round_small false p) as [m [e ->]]; [|reflexivity].
    apply digits2_pos_bound. lia.
  - destruct (binary_round_small true p) as [m [e ->]]; [|reflexivity].
    apply digits2_pos_bound. lia.
Qed.

(* ================================================================= *)
(** ** The bounded API caller *)

Lemma gets_app t e : gets (t ++ [e]) = (gets t + (if is_get e then 1 else 0))%nat.
Proof.
  unfold gets. rewrite filter_app, length_app. cbn [filter].
  destruct (is_get e); reflexivity.
Qed.

(** Unfolds the plumbing of a computation once the world is a constructor. *)
Ltac run :=
  cbv beta iota zeta delta
    [try_except bind ret raise lift emit sleep get_self set_api_calls any_Exception
     http_get ticker_info twilio_send bump
     self trace api_key api_calls max_daily_calls fst snd].

Section ApiCaller.

Variable E : Env.

(** An attempt made at or above the ceiling raises at once. *)
Lemma attempt_over_ceiling url retries i w :
  max_daily_calls (self w) <= api_calls (self w) ->
  attempt E url retries i w = (Raise quota_error, {| self := bump 1 (self w); trace := trace w |}).
Proof.
  destruct w as [[key calls ceiling] t]. run.
  intros H. unfold attempt. run.
  replace (ceiling <? calls + 1) with true by (symmetry; apply Z.ltb_lt; lia).
  reflexivity.
Qed.

Lemma attempt_transport_failure url retries i w m :
  api_calls (self w) < max_daily_calls (self w) ->
  transport_failure (requests_get E (gets (trace w)) url (Some 10)) m ->
  attempt E url retries i w =
    if i =? retries - 1
    then (Raise (Exception_ (lit "API call failed after " ++ str_of_int retries
                               ++ lit " retries: " ++ m)),
          {| self := bump 1 (self w); trace := trace w ++ [EvGet url (Some 10)] |})
    else (Ok None,
          {| self := bump 1 (self w);
             trace := (trace w ++ [EvGet url (Some 10)]) ++ [backoff i] |}).
Proof.
  destruct w as [[key calls ceiling] t]. run.
  intros Hc Hf. unfold attempt. run.
  replace (ceiling <? calls + 1) with false by (symmetry; apply Z.ltb_ge; lia).
  destruct Hf as [Hf | [resp [Hf Hs]]]; rewrite Hf; [| rewrite Hs];
    cbn [is_RequestException exn_str]; destruct (i =? retries - 1); reflexivity.
Qed.

Lemma attempt_success url retries i w v secs :
  api_calls (self w) < max_daily_calls (self w) ->
  succeeds_with (requests_get E (gets (trace w)) url (Some 10)) v ->
  float_binop fmul (PFloat (dec 2 1)) (PInt (i + 1)) = Ok secs ->
  attempt E url retries i w =
    (Ok (Some v),
     {| self := bump 1 (self w);
        trace := (trace w ++ [EvGet url (Some 10)]) ++ [EvSleep (PFloat secs)] |}).
Proof.
  destruct w as [[key calls ceiling] t]. run.
  intros Hc [resp [Hr [Hs Hj]]] Hsecs. unfold attempt. run.
  replace (ceiling <? calls + 1) with false by (symmetry; apply Z.ltb_ge; lia).
  rewrite Hr, Hs, Hsecs, Hj. reflexivity.
Qed.

(** Every attempt increments the counter exactly once and touches no
    other attribute of the scanner. *)
Lemma attempt_self url retries i w :
  self (snd (attempt E url retries i w)) = bump 1 (self w).
Proof.
  destruct w as [[key calls ceiling] t]. unfold attempt. run.
  destruct (ceiling <? calls + 1); [reflexivity|].
  destruct (requests_get E (gets t) url (Some 10)) as [resp|e].
  - destruct (raise_for_status resp) as [[]|e].
    + destruct (float_binop fmul (PFloat (dec 2 1)) (PInt (i + 1))) as [secs|e].
      * destruct (json resp) as [v|e]; [reflexivity|].
        destruct (is_RequestException e); [|reflexivity].
        destruct (i =? retries - 1); reflexivity.
      * destruct (is_RequestException e); [|reflexivity].
        destruct (i =? retries - 1); reflexivity.
    + destruct (is_RequestException e); [|reflexivity].
      destruct (i =? retries - 1); reflexivity.
  - destruct (is_RequestException e); [|reflexivity].
    destruct (i =? retries - 1); reflexivity.
Qed.

Lemma attempts_step url retries fuel i w :
  attempts E url retries (S fuel) i w =
    match attempt E url retries i w with
    | (Ok (Some v), w') => (Ok v, w')
    | (Ok None, w') => attempts E url retries fuel (i + 1) w'
    | (Raise e, w') => (Raise e, w')
    end.
Proof.
  cbn [attempts]. unfold bind.
  destruct (attempt E url retries i w) as [[[v|]|e] w']; reflexivity.
Qed.

Lemma attempts_self url retries fuel : forall i w,
  exists n, 0 <= n /\ self (snd (attempts E url retries fuel i w)) = bump n (self w).
Proof.
  induction fuel as [|fuel IH]; intros i w.
  - exists 0. split; [lia|]. destruct w as [[key calls ceiling] t]. cbn [attempts]. run.
    f_equal. lia.
  - rewrite attempts_step.
    pose proof (attempt_self url retries i w) as Ha.
    destruct (attempt E url retries i w) as [[[v|]|e] w1]; cbn [snd] in Ha.
    + exists 1. split; [lia|]. exact Ha.
    + destruct (IH (i + 1) w1) as [n [Hn Hs]]. exists (1 + n). split; [lia|].
      rewrite Hs, Ha. unfold bump. cbn [api_key api_calls max_daily_calls]. f_equal. lia.
    + exists 1. split; [lia|]. exact Ha.
Qed.

Lemma make_api_call_self url retries w :
  exists n, 0 <= n /\ self (snd (_make_api_call E url retries w)) = bump n (self w).
Proof. apply attempts_self. Qed.

(** [C3] Once the call counter exceeds the ceiling of 250, an invocation of
    the bounded API caller raises the quota error from its first attempt:
    the trace of the world is unchanged, so no request was sent and no
    back-off sleep of the retry loop was taken, and the counter, one
    higher, still exceeds the ceiling for the invocation that follows. *)
Theorem make_api_call_over_ceiling url retries w :
  0 < retries ->
  max_daily_calls (self w) = 250 ->
  250 < api_calls (self w) ->
  _make_api_call E url retries w
    = (Raise quota_error, {| self := bump 1 (self w); trace := trace w |})
  /\ 250 < api_calls (bump 1 (self w))
  /\ max_daily_calls (bump 1 (self w)) = 250.
Proof.
  intros Hr Hm Hc. split; [|split].
  - unfold _make_api_call.
    destruct (Z.to_nat retries) as [|fuel] eqn:Hfuel; [lia|].
    rewrite attempts_step, attempt_over_ceiling by lia. reflexivity.
  - unfold bump. cbn [api_calls]. lia.
  - exact Hm.
Qed.

(** [C5] With room for three more calls under the ceiling, when the first
    two attempts fail at transport level: if the third succeeds, the caller
    returns its parsed value and the counter has gone up by exactly 3; if
    the third fails at transport level too, the caller raises the
    exhausted-retries error, whose message ends with the message of that
    last transport error. *)
Theorem make_api_call_retries url w m1 m2 :
  api_calls (self w) + 3 <= max_daily_calls (self w) ->
  transport_failure (requests_get E (gets (trace w)) url (Some 10)) m1 ->
  transport_failure (requests_get E (S (gets (trace w))) url (Some 10)) m2 ->
  (forall v,
      succeeds_with (requests_get E (S (S (gets (trace w)))) url (Some 10)) v ->
      fst (_make_api_call E url 3 w) = Ok v /\
      api_calls (self (snd (_make_api_call E url 3 w))) = api_calls (self w) + 3)
  /\
  (forall m3,
      transport_failure (requests_get E (S (S (gets (trace w)))) url (Some 10)) m3 ->
      fst (_make_api_call E url 3 w)
        = Raise (Exception_ (lit "API call failed after 3 retries: " ++ m3)) /\
      api_calls (self (snd (_make_api_call E url 3 w))) = api_calls (self w) + 3).
Proof.
  intros Hc H1 H2.
  assert (Hstep1 : attempt E url 3 0 w =
            (Ok None, {| self := bump 1 (self w);
                         trace := (trace w ++ [EvGet url (Some 10)]) ++ [backoff 0] |})).
  { rewrite (attempt_transport_failure url 3 0 w m1) by (assumption || lia). reflexivity. }
  set (w1 := {| self := bump 1 (self w);
                trace := (trace w ++ [EvGet url (Some 10)]) ++ [backoff 0] |}) in *.
  assert (Hg1 : gets (trace w1) = S (gets (trace w))).
  { unfold w1. cbn [trace]. rewrite !gets_app. cbn [is_get backoff]. lia. }
  assert (Hstep2 : attempt E url 3 (0 + 1) w1 =
            (Ok None, {| self := bump 1 (self w1);
                         trace := (trace w1 ++ [EvGet url (Some 10)]) ++ [backoff (0 + 1)] |})).
  { rewrite (attempt_transport_failure url 3 (0 + 1) w1 m2).
    - reflexivity.
    - unfold w1, bump. cbn [self api_calls max_daily_calls]. lia.
    - rewrite Hg1. exact H2. }
  set (w2 := {| self := bump 1 (self w1);
                trace := (trace w1 ++ [EvGet url (Some 10)]) ++ [backoff (0 + 1)] |}) in *.
  assert (Hg2 : gets (trace w2) = S (S (gets (trace w)))).
  { unfold w2. cbn [trace]. rewrite !gets_app, Hg1. cbn [is_get backoff]. lia. }
  assert (Hc2 : api_calls (self w2) < max_daily_calls (self w2)).
  { unfold w2, w1, bump. cbn [self api_calls max_daily_calls]. lia. }
  assert (Hn2 : api_calls (self w2) + 1 = api_calls (self w) + 3).
  { unfold w2, w1, bump. cbn [self api_calls]. lia. }
  unfold _make_api_call. change (Z.to_nat 3) with 3%nat.
  rewrite attempts_step, Hstep1, attempts_step, Hstep2, attempts_step.
  split.
  - intros v Hv.
    assert (Hsecs : exists secs,
               float_binop fmul (PFloat (dec 2 1)) (PInt (0 + 1 + 1 + 1)) = Ok secs)
      by (eexists; vm_compute; reflexivity).
    destruct Hsecs as [secs Hsecs].
    rewrite (attempt_success url 3 (0 + 1 + 1) w2 v secs); try assumption.
    + cbn [fst snd ret self]. split; [reflexivity|]. unfold bump at 1. cbn [api_calls]. exact Hn2.
    + rewrite Hg2. exact Hv.
  - intros m3 H3.
    rewrite (attempt_transport_failure url 3 (0 + 1 + 1) w2 m3); try assumption.
    + change (0 + 1 + 1 =? 3 - 1) with true. cbn [fst snd self].
      split; [reflexivity|]. unfold bump at 1. cbn [api_calls]. exact Hn2.
    + rewrite Hg2. exact H3.
Qed.

End ApiCaller.

Lemma make_api_call_over_ceiling_witness :
  _make_api_call Sample.env_up Sample.url 3 (Sample.world 251)
    = (Raise quota_error, {| self := Sample.scanner 252; trace := [] |})
  /\ 250 < api_calls (bump 1 (self (Sample.world 251)))
  /\ max_daily_calls (bump 1 (self (Sample.world 251))) = 250.
Proof.
  apply (make_api_call_over_ceiling Sample.env_up Sample.url 3 (Sample.world 251)).
  - lia.
  - reflexivity.
  - cbn. lia.
Defined.

Lemma make_api_call_retries_witness :
  (fst (_make_api_call Sample.env_flaky Sample.url 3 (Sample.world 0)) = Ok Sample.snapshot /\
   api_calls (self (snd (_make_api_call Sample.env_flaky Sample.url 3 (Sample.world 0)))) = 0 + 3)
  /\
  (fst (_make_api_call Sample.env_down Sample.url 3 (Sample.world 0))
     = Raise (Exception_ (lit "API call failed after 3 retries: " ++ lit "timed out")) /\
   api_calls (self (snd (_make_api_call Sample.env_down Sample.url 3 (Sample.world 0)))) = 0 + 3).
Proof.
  split.
  - apply (proj1 (make_api_call_retries Sample.env_flaky Sample.url (Sample.world 0)
                    (lit "timed out") (lit "timed out")
                    ltac:(cbn; lia) (or_introl eq_refl) (or_introl eq_refl))).
    exists (Sample.ok_response Sample.snapshot). repeat split.
  - apply (proj2 (make_api_call_retries Sample.env_down Sample.url (Sample.world 0)
                    (lit "timed out") (lit "timed out")
                    ltac:(cbn; lia) (or_introl eq_refl) (or_introl eq_refl))).
    left. reflexivity.
Defined.

(* ================================================================= *)
(** ** The quota gate *)

Section QuotaGate.

Variable E : Env.

Lemma py_gt_true v n :
  py_gt v n = Ok true -> exists a, as_num v = Some a /\ num_ltb n a = true.
Proof.
  unfold py_gt. destruct (as_num v) as [a|]; [|discriminate].
  intros H. injection H as H. exists a. split; [reflexivity | exact H].
Qed.

Lemma py_getitem_ok v k x :
  py_getitem v k = Ok x -> exists d, v = PDict d /\ lookup k d = Some x.
Proof.
  destruct v; try discriminate. cbn [py_getitem].
  destruct (lookup k d) as [y|] eqn:Hl; [|discriminate].
  intros H. injection H as ->. exists d. split; [reflexivity | exact Hl].
Qed.

(** [C9] The quota gate always returns a boolean and never raises.  It
    returns [True] only when the response parsed to a dict whose
    [remainingCalls] entry is a number greater than 5; it returns [False]
    when the request raises, when parsing the body raises, when the parsed
    value is not a dict, and when the dict has no [remainingCalls] entry. *)
Theorem check_api_quota_fail_closed w :
  let answer := requests_get E (gets (trace w)) (quota_url E (self w)) None in
  exists b,
    check_api_quota E w
      = (Ok b, {| self := self w; trace := trace w ++ [EvGet (quota_url E (self w)) None] |})
    /\ (b = true ->
        exists resp d v a,
          answer = Ok resp /\ json resp = Ok (PDict d) /\
          lookup (lit "remainingCalls") d = Some v /\
          as_num v = Some a /\ num_ltb (NInt 5) a = true /\
          (forall z, a = NInt z -> 5 < z))
    /\ (forall e, answer = Raise e -> b = false)
    /\ (forall resp e, answer = Ok resp -> json resp = Raise e -> b = false)
    /\ (forall resp data, answer = Ok resp -> json resp = Ok data ->
        (forall d, data <> PDict d) -> b = false)
    /\ (forall resp d, answer = Ok resp -> json resp = Ok (PDict d) ->
        lookup (lit "remainingCalls") d = None -> b = false).
Proof.
  destruct w as [[key calls ceiling] t]. run.
  unfold check_api_quota, check_api_quota_body. run.
  set (url := quota_url E _).
  destruct (requests_get E (gets t) url None) as [resp|e] eqn:Hget.
  2:{ exists false. split; [reflexivity|]. repeat split; try discriminate; reflexivity. }
  destruct (json resp) as [data|e] eqn:Hjson.
  2:{ exists false. split; [reflexivity|].
      repeat split; try discriminate; try reflexivity.
      all: intros; congruence. }
  destruct (py_contains (lit "remainingCalls") data) as [[|]|e] eqn:Hin.
  - destruct (py_getitem data (lit "remainingCalls")) as [v|e] eqn:Hitem.
    + destruct (py_gt v (NInt 5)) as [b|e] eqn:Hgt.
      * exists b. split; [reflexivity|].
        apply py_getitem_ok in Hitem as [d [-> Hl]].
        split; [|split; [|split; [|split]]].
        -- intros ->. apply py_gt_true in Hgt as [a [Ha Hlt]].
           exists resp, d, v, a. repeat split; try assumption.
           intros z ->. unfold num_ltb, num_compare in Hlt.
           destruct (5 ?= z) eqn:Hcmp; try discriminate.
           apply Z.compare_lt_iff. exact Hcmp.
        -- discriminate.
        -- intros r e Hr. injection Hr as <-. congruence.
        -- intros r data Hr Hd Hnot. injection Hr as <-.
           rewrite Hjson in Hd. injection Hd as <-. destruct (Hnot d eq_refl).
        -- intros r d' Hr Hd Hnone. injection Hr as <-.
           rewrite Hjson in Hd. injection Hd as <-. congruence.
      * exists false. split; [reflexivity|]. repeat split; try discriminate; reflexivity.
    + exists false. split; [reflexivity|]. repeat split; try discriminate; reflexivity.
  - exists false. split; [reflexivity|]. repeat split; try discriminate; reflexivity.
  - exists false. split; [reflexivity|]. repeat split; try discriminate; reflexivity.
Qed.

End QuotaGate.

(** The gate opens on the sample environment, which reports 200 calls. *)
Example check_api_quota_open :
  fst (check_api_quota Sample.env_up (Sample.world 0)) = Ok true.
Proof. vm_compute. reflexivity. Qed.

(* ================================================================= *)
(** ** The enricher *)

Section Enricher.

Variable E : Env.

(** One pass of the loop: it never raises, it asks the metadata provider
    once, and it appends what [enrich_outcome] yields. *)
Lemma enrich_one_eq stock acc w :
  let answer := yf_info E (tickers (trace w)) (symbol stock) in
  enrich_one E stock acc w =
    (Ok (acc ++ option_list (enrich_outcome E stock answer)),
     {| self := self w;
        trace := (trace w ++ [EvTicker (symbol stock)])
                 ++ match enrich_outcome E stock answer with
                    | Some _ => [EvSleep (PFloat (dec 1 1))]
                    | None => []
                    end |}).
Proof.
  destruct w as [s t]. unfold enrich_one, enrich_outcome. run.
  destruct (yf_info E (tickers t) (symbol stock)) as [info|e].
  2:{ cbn [option_list]. rewrite !app_nil_r. reflexivity. }
  destruct (in_band (dict_get info (lit "marketCap") (PInt 0))) as [[|]|e].
  - cbn [negb].
    destruct (build_stock_info E stock info (dict_get info (lit "marketCap") (PInt 0)))
      as [r|e]; cbn [option_list]; rewrite ?app_nil_r; reflexivity.
  - cbn [negb option_list]. rewrite !app_nil_r. reflexivity.
  - cbn [option_list]. rewrite !app_nil_r. reflexivity.
Qed.

Lemma build_stock_info_symbol stock info cap r :
  build_stock_info E stock info cap = Ok r -> Symbol r = symbol stock.
Proof.
  unfold build_stock_info, rbind.
  destruct (py_truediv cap _); [|discriminate].
  destruct (py_round2 (price stock)); [|discriminate].
  destruct (py_round2 (yearLow stock)); [|discriminate].
  destruct (distance_from_low _ _); [|discriminate].
  destruct (description info); [|discriminate].
  intros H. injection H as <-. reflexivity.
Qed.

Lemma enrich_outcome_symbol stock answer r :
  enrich_outcome E stock answer = Some r -> Symbol r = symbol stock.
Proof.
  unfold enrich_outcome. destruct answer as [info|e]; [|discriminate].
  destruct (in_band _) as [[|]|]; try discriminate.
  destruct (build_stock_info E stock info _) as [r'|] eqn:Hb; [|discriminate].
  intros H. injection H as <-. eapply build_stock_info_symbol. exact Hb.
Qed.

(** The loop never raises, leaves the scanner alone, and every record it
    adds is the outcome of one pass for one of the candidates it was
    given. *)
Lemma enrich_loop_spec stocks : forall acc w,
  exists added,
    fst (enrich_loop E stocks acc w) = Ok (acc ++ added) /\
    self (snd (enrich_loop E stocks acc w)) = self w /\
    Forall (fun r => exists c answer, In c stocks /\ enrich_outcome E c answer = Some r) added.
Proof.
  induction stocks as [|stock rest IH]; intros acc w.
  - exists []. cbn [enrich_loop]. unfold ret. cbn [fst snd].
    rewrite app_nil_r. repeat split. constructor.
  - cbn [enrich_loop]. unfold bind. rewrite enrich_one_eq. cbv zeta.
    set (answer := yf_info E _ _).
    set (o := enrich_outcome E stock answer).
    set (w1 := {| self := self w; trace := _ |}).
    destruct (IH (acc ++ option_list o) w1) as [added [Hr [Hs Hall]]].
    exists (option_list o ++ added). split; [|split].
    + rewrite Hr, app_assoc. reflexivity.
    + rewrite Hs. reflexivity.
    + apply Forall_app. split.
      * destruct o as [r|] eqn:Ho; cbn [option_list]; constructor; [|constructor].
        exists stock, answer. split; [left; reflexivity | exact Ho].
      * eapply Forall_impl; [|exact Hall].
        intros r [c [a [Hin Ho]]]. exists c, a. split; [right; exact Hin | exact Ho].
Qed.

Lemma enrich_stock_data_spec stocks w :
  exists records,
    fst (enrich_stock_data E stocks w) = Ok records /\
    Forall (fun r => exists c answer, In c stocks /\ enrich_outcome E c answer = Some r)
           records.
Proof.
  destruct (enrich_loop_spec stocks [] w) as [added [Hr [_ Hall]]].
  exists added. split; [exact Hr | exact Hall].
Qed.

Lemma float_of_int_1 : float_of_int 1 = Ok (Z2SF 1).
Proof. vm_compute. reflexivity. Qed.

Lemma float_of_int_100 : float_of_int 100 = Ok (Z2SF 100).
Proof. vm_compute. reflexivity. Qed.

(** The distance is the rounding of [(ratio - 1) * 100], where [ratio] is
    the quotient [price / yearLow]. *)
Lemma distance_from_low_ok p yl d :
  distance_from_low p yl = Ok d ->
  exists ratio,
    py_truediv p yl = Ok ratio /\
    d = float_round2 (fmul (fsub ratio (Z2SF 1)) (Z2SF 100)).
Proof.
  unfold distance_from_low, rbind.
  destruct (py_truediv p yl) as [ratio|e]; [|discriminate].
  unfold float_binop. cbn [as_num to_float rbind].
  rewrite float_of_int_1. cbn [rbind]. rewrite float_of_int_100. cbn [rbind].
  intros H. injection H as <-. exists ratio. split; reflexivity.
Qed.

Lemma build_stock_info_distance stock info cap r :
  build_stock_info E stock info cap = Ok r ->
  exists d,
    distance_from_low (price stock) (yearLow stock) = Ok d /\
    Distance_from_Low r = py_str E (PFloat d) ++ lit "%".
Proof.
  unfold build_stock_info, rbind.
  destruct (py_truediv cap _); [|discriminate].
  destruct (py_round2 (price stock)); [|discriminate].
  destruct (py_round2 (yearLow stock)); [|discriminate].
  destruct (distance_from_low _ _) as [d|]; [|discriminate].
  destruct (description info); [|discriminate].
  intros H. injection H as <-. exists d. split; reflexivity.
Qed.

Lemma enrich_outcome_build stock answer r :
  enrich_outcome E stock answer = Some r <->
  exists info,
    answer = Ok info /\
    in_band (dict_get info (lit "marketCap") (PInt 0)) = Ok true /\
    build_stock_info E stock info (dict_get info (lit "marketCap") (PInt 0)) = Ok r.
Proof.
  unfold enrich_outcome. split.
  - destruct answer as [info|e]; [|discriminate].
    destruct (in_band _) as [[|]|] eqn:Hband; try discriminate.
    destruct (build_stock_info E stock info _) as [r'|] eqn:Hb; [|discriminate].
    intros H. injection H as <-. exists info. split; [reflexivity|].
    split; [exact Hband | exact Hb].
  - intros [info [-> [-> ->]]]. reflexivity.
Qed.

(** [C2, amended] The enricher never raises, and in every record it
    returns the field [Distance from Low] is the text of
    [round((price / yearLow - 1) * 100, 2)] followed by a percent sign,
    for a candidate of the input with the record's symbol.  Nothing is
    said of the sign of that value. *)
Theorem distance_from_low_field stocks w :
  exists records,
    fst (enrich_stock_data E stocks w) = Ok records /\
    Forall (fun r =>
              exists c ratio,
                In c stocks /\ Symbol r = symbol c /\
                py_truediv (price c) (yearLow c) = Ok ratio /\
                Distance_from_Low r
                  = py_str E (PFloat (float_round2 (fmul (fsub ratio (Z2SF 1)) (Z2SF 100))))
                    ++ lit "%")
           records.
Proof.
  destruct (enrich_stock_data_spec stocks w) as [records [Hr Hall]].
  exists records. split; [exact Hr|].
  eapply Forall_impl; [|exact Hall].
  intros r [c [answer [Hin Ho]]].
  pose proof (enrich_outcome_symbol c answer r Ho) as Hsym.
  apply enrich_outcome_build in Ho as [info [_ [_ Hb]]].
  apply build_stock_info_distance in Hb as [d [Hd Hfield]].
  apply distance_from_low_ok in Hd as [ratio [Hratio ->]].
  exists c, ratio. repeat split; assumption.
Qed.

Lemma tickers_app t e : tickers (t ++ [e]) = (tickers t + (if is_ticker e then 1 else 0))%nat.
Proof.
  unfold tickers. rewrite filter_app, length_app. cbn [filter].
  destruct (is_ticker e); reflexivity.
Qed.

Lemma enrich_loop_outcomes stocks : forall acc w,
  fst (enrich_loop E stocks acc w) = Ok (acc ++ outcomes E (tickers (trace w)) stocks).
Proof.
  induction stocks as [|stock rest IH]; intros acc w.
  - cbn [enrich_loop outcomes]. rewrite app_nil_r. reflexivity.
  - cbn [enrich_loop outcomes]. unfold bind. rewrite enrich_one_eq. cbv zeta.
    rewrite IH. cbn [trace]. rewrite <- app_assoc. do 4 f_equal.
    destruct (enrich_outcome E stock _).
    + rewrite !tickers_app. cbn [is_ticker]. lia.
    + rewrite app_nil_r, tickers_app. cbn [is_ticker]. lia.
Qed.

Lemma in_band_int z : in_band (PInt z) = Ok true <-> 10000000 <= z <= 300000000.
Proof.
  unfold in_band, py_ge, py_le, num_leb, num_compare. cbn [as_num rbind].
  destruct (Z.compare_spec 10000000 z) as [Hlo|Hlo|Hlo]; cbn [rbind];
    destruct (Z.compare_spec z 300000000) as [Hhi|Hhi|Hhi];
    (split; [intros H; try discriminate; lia | intros H; try reflexivity; lia]).
Qed.

Lemma in_band_falsy v : truthy v = false -> in_band v <> Ok true.
Proof.
  destruct v as [|[|]|z|f|s|l|d]; cbn [truthy]; intros H; try discriminate;
    try (cbn; discriminate).
  - apply negb_false_iff, Z.eqb_eq in H. subst z. cbn. discriminate.
  - destruct f; discriminate.
Qed.

(** The description is the first 200 characters of the summary followed
    by three dots; without a summary it is ["N/A..."]. *)
Lemma description_spec info :
  (forall s, lookup (lit "longBusinessSummary") info = Some (PStr s) ->
     description info = Ok (firstn 200 s ++ lit "..."))
  /\ (lookup (lit "longBusinessSummary") info = None ->
      description info = Ok (lit "N/A...")).
Proof.
  unfold description, dict_get. split.
  - intros s ->. reflexivity.
  - intros ->. reflexivity.
Qed.

Lemma in_band_true_num v :
  in_band v = Ok true ->
  exists n, as_num v = Some n /\
            num_leb (NInt 10000000) n = true /\ num_leb n (NInt 300000000) = true.
Proof.
  unfold in_band, py_ge, py_le.
  destruct (as_num v) as [n|]; [|discriminate]. cbn [rbind].
  destruct (num_leb (NInt 10000000) n) eqn:Hlo; [|discriminate].
  intros H. injection H as H. exists n. split; [reflexivity|].
  split; [exact Hlo | exact H].
Qed.

(** With a market cap in the band, float prices, a year low that is not
    zero and a summary that is a string or absent, the record is built. *)
Lemma build_stock_info_ok stock info cap a b :
  in_band cap = Ok true ->
  price stock = PFloat a -> yearLow stock = PFloat b -> is_zero b = false ->
  (lookup (lit "longBusinessSummary") info = None \/
   exists s, lookup (lit "longBusinessSummary") info = Some (PStr s)) ->
  exists r, build_stock_info E stock info cap = Ok r.
Proof.
  intros Hband Hp Hy Hnz Hsum.
  apply in_band_true_num in Hband as [n [Hn [Hlo Hhi]]].
  assert (Hm : exists millions, py_truediv cap (PFloat (Z2SF 1000000)) = Ok millions).
  { unfold py_truediv. rewrite Hn. cbn [as_num].
    destruct n as [z|f]; cbn [to_float rbind].
    - unfold float_of_int. rewrite Z2SF_small.
      + cbn [rbind]. eexists. reflexivity.
      + unfold num_leb, num_compare in Hlo, Hhi.
        destruct (Z.compare_spec 10000000 z); try discriminate;
          destruct (Z.compare_spec z 300000000); try discriminate; lia.
    - eexists. reflexivity. }
  destruct Hm as [millions Hm].
  assert (Hd : exists descr, description info = Ok descr).
  { destruct (description_spec info) as [Hs Ha].
    destruct Hsum as [Hnone | [s Hsome]]; eexists; eauto. }
  destruct Hd as [descr Hd].
  unfold build_stock_info, distance_from_low. rewrite Hm, Hp, Hy, Hd.
  unfold py_truediv, float_binop. cbn [as_num to_float rbind py_round2].
  rewrite Hnz. cbn [rbind]. rewrite float_of_int_1. cbn [rbind].
  rewrite float_of_int_100. cbn [rbind]. eexists. reflexivity.
Qed.

(** [C6, amended] The enricher returns, in input order, the outcomes of
    its candidates.  A candidate yields a record exactly when its metadata
    lookup succeeds, its market cap is in the band, and building the
    fields of the record raises no exception.  For an integer market cap
    the band test is [10,000,000 <= marketCap <= 300,000,000]; a candidate
    whose market cap is missing or falsy (zero, null) yields nothing, and
    neither does one whose lookup raises.  When the prices of the
    candidate are floats with a year low that is not zero and the summary
    is a string or absent, nothing can raise while the fields are built,
    and the candidate yields a record exactly when its market cap is in
    the band. *)
Theorem enricher_band_filter stocks w :
  fst (enrich_stock_data E stocks w) = Ok (outcomes E (tickers (trace w)) stocks)
  /\ (forall stock answer r,
        enrich_outcome E stock answer = Some r <->
        exists info,
          answer = Ok info /\
          in_band (dict_get info (lit "marketCap") (PInt 0)) = Ok true /\
          build_stock_info E stock info (dict_get info (lit "marketCap") (PInt 0)) = Ok r)
  /\ (forall z, in_band (PInt z) = Ok true <-> 10000000 <= z <= 300000000)
  /\ (forall stock info,
        truthy (dict_get info (lit "marketCap") (PInt 0)) = false ->
        enrich_outcome E stock (Ok info) = None)
  /\ (forall stock e, enrich_outcome E stock (Raise e) = None)
  /\ (forall stock info a b,
        price stock = PFloat a -> yearLow stock = PFloat b -> is_zero b = false ->
        (lookup (lit "longBusinessSummary") info = None \/
         exists s, lookup (lit "longBusinessSummary") info = Some (PStr s)) ->
        (in_band (dict_get info (lit "marketCap") (PInt 0)) = Ok true <->
         exists r, enrich_outcome E stock (Ok info) = Some r)).
Proof.
  split; [|split; [|split; [|split; [|split]]]].
  - unfold enrich_stock_data. rewrite enrich_loop_outcomes. reflexivity.
  - apply enrich_outcome_build.
  - apply in_band_int.
  - intros stock info H. apply in_band_falsy in H. unfold enrich_outcome.
    destruct (in_band _) as [[|]|]; try reflexivity. destruct (H eq_refl).
  - reflexivity.
  - intros stock info a b Hp Hy Hnz Hsum. split.
    + intros Hband.
      destruct (build_stock_info_ok stock info _ a b Hband Hp Hy Hnz Hsum) as [r Hr].
      exists r. apply enrich_outcome_build. exists info. repeat split; assumption.
    + intros [r Hr]. apply enrich_outcome_build in Hr as [info' [Hi [Hband _]]].
      injection Hi as <-. exact Hband.
Qed.

End Enricher.

(* ================================================================= *)
(** ** The candidate scan *)

Section Scanner.

Variable E : Env.

Lemma get_initial_stocks_eq w :
  get_initial_stocks E w =
    match _make_api_call E (quote_url E (self w)) 3 w with
    | (Ok quotes, w') =>
        (Ok match py_iter quotes with
            | Ok items =>
                match scan_quotes items [] with
                | Ok stocks_info => stocks_info
                | Raise _ => []
                end
            | Raise _ => []
            end, w')
    | (Raise _, w') => (Ok [], w')
    end.
Proof.
  destruct w as [s t]. unfold get_initial_stocks. run.
  destruct (_make_api_call E (quote_url E s) 3 {| self := s; trace := t |})
    as [[quotes|e] w']; [|reflexivity].
  destruct (py_iter quotes) as [items|e]; [|reflexivity].
  destruct (scan_quotes items []); reflexivity.
Qed.

Lemma get_initial_stocks_self w :
  exists n, 0 <= n /\ self (snd (get_initial_stocks E w)) = bump n (self w).
Proof.
  rewrite get_initial_stocks_eq.
  destruct (make_api_call_self E (quote_url E (self w)) 3 w) as [n [Hn Hs]].
  exists n. split; [exact Hn|].
  destruct (_make_api_call E (quote_url E (self w)) 3 w) as [[quotes|e] w']; exact Hs.
Qed.

(** On a plain quote the body of the inner [try] appends the quote's three
    fields exactly when the test holds, and what it may raise is caught by
    the inner handler. *)
Lemma scan_quote_plain q :
  plain_quote q ->
  match scan_quote q with
  | Ok (Some c) => is_candidate q = true /\ c = candidate_of q
  | Ok None => is_candidate q = false
  | Raise e => is_ValueError_or_TypeError e = true /\ is_candidate q = false
  end.
Proof.
  intros [d [-> Hconv]]. unfold is_candidate, near_year_low, scan_quote.
  cbn [py_get rbind candidate_of price yearLow].
  set (p := dict_get d (lit "price") (PInt 0)).
  set (yl := dict_get d (lit "yearLow") (PInt 0)) in *.
  destruct (truthy p); [|reflexivity].
  destruct (truthy yl); [|reflexivity].
  cbn [andb].
  assert (Hmul : forall e, float_binop fmul yl (PFloat (dec 102 2)) = Raise e -> e = TypeError).
  { unfold float_binop. unfold convertible in Hconv.
    destruct (as_num yl) as [[z|f]|]; cbn [as_num to_float rbind].
    - unfold float_of_int. rewrite Hconv. cbn [rbind]. discriminate.
    - discriminate.
    - intros e H. injection H as <-. reflexivity. }
  destruct (float_binop fmul yl (PFloat (dec 102 2))) as [limit|e].
  - unfold py_le. destruct (as_num p) as [a|]; cbn [rbind].
    + destruct (num_leb a (NFloat limit)); [split|]; reflexivity.
    + split; reflexivity.
  - rewrite (Hmul e eq_refl). cbn [rbind]. split; reflexivity.
Qed.

Lemma scan_quotes_plain quotes : forall acc,
  Forall plain_quote quotes ->
  scan_quotes quotes acc = Ok (acc ++ map candidate_of (filter is_candidate quotes)).
Proof.
  induction quotes as [|q rest IH]; intros acc Hall.
  - cbn. rewrite app_nil_r. reflexivity.
  - inversion Hall as [|q' rest' Hq Hrest]; subst.
    cbn [scan_quotes filter]. pose proof (scan_quote_plain q Hq) as Hs.
    destruct (scan_quote q) as [[c|]|e].
    + destruct Hs as [-> ->]. rewrite IH by assumption.
      cbn [map]. rewrite <- app_assoc. reflexivity.
    + rewrite Hs. apply IH. assumption.
    + destruct Hs as [-> ->]. apply IH. assumption.
Qed.

Lemma positive_truthy v : positive v -> truthy v = true.
Proof.
  intros [a [Ha Hpos]]. unfold num_ltb, num_compare in Hpos.
  destruct v as [|b|z|f| | |]; try discriminate; cbn in Ha; injection Ha as <-.
  - destruct b; [reflexivity | discriminate].
  - cbn [truthy]. destruct (0 ?= z) eqn:Hc; try discriminate.
    rewrite Z.compare_lt_iff in Hc. apply negb_true_iff, Z.eqb_neq. lia.
  - destruct f; try reflexivity. discriminate.
Qed.

(** [C1, amended] When the snapshot is a list of plain quotes, the scan
    returns, in order, the three fields of exactly the quotes that pass
    the test [is_candidate]: price and yearLow both truthy and
    [price <= yearLow * 1.02] true.  For a quote whose price and yearLow
    are numbers greater than zero, the test is the comparison
    [price <= yearLow * 1.02] alone.  A quote is excluded whenever its
    price or its yearLow is missing, is falsy (null, zero, false, empty),
    or is not a number. *)
Theorem get_initial_stocks_filter w w' quotes :
  _make_api_call E (quote_url E (self w)) 3 w = (Ok (PList quotes), w') ->
  Forall plain_quote quotes ->
  get_initial_stocks E w = (Ok (map candidate_of (filter is_candidate quotes)), w')
  /\ (forall q, In q quotes ->
        positive (price (candidate_of q)) -> positive (yearLow (candidate_of q)) ->
        exists a limit,
          as_num (price (candidate_of q)) = Some a /\
          float_binop fmul (yearLow (candidate_of q)) (PFloat (dec 102 2)) = Ok limit /\
          is_candidate q = num_leb a (NFloat limit))
  /\ (forall q,
        truthy (price (candidate_of q)) = false \/
        truthy (yearLow (candidate_of q)) = false \/
        as_num (price (candidate_of q)) = None \/
        as_num (yearLow (candidate_of q)) = None ->
        is_candidate q = false)
  /\ (forall d,
        lookup (lit "price") d = None \/ lookup (lit "yearLow") d = None ->
        is_candidate (PDict d) = false).
Proof.
  intros Hcall Hplain.
  assert (Hexcl : forall q,
        truthy (price (candidate_of q)) = false \/
        truthy (yearLow (candidate_of q)) = false \/
        as_num (price (candidate_of q)) = None \/
        as_num (yearLow (candidate_of q)) = None ->
        is_candidate q = false).
  { intros q. unfold is_candidate, near_year_low.
    intros [H | [H | [H | H]]].
    - rewrite H. reflexivity.
    - rewrite H. apply andb_false_iff. left. apply andb_false_r.
    - apply andb_false_iff. right. unfold py_le. rewrite H.
      destruct (float_binop _ _ _); reflexivity.
    - apply andb_false_iff. right. unfold float_binop. rewrite H. reflexivity. }
  split; [|split; [|split]].
  - rewrite get_initial_stocks_eq, Hcall. cbn [py_iter].
    rewrite scan_quotes_plain by assumption. reflexivity.
  - intros q Hin Hp Hy.
    rewrite Forall_forall in Hplain. destruct (Hplain q Hin) as [d [-> Hconv]].
    unfold is_candidate, near_year_low.
    rewrite (positive_truthy _ Hp), (positive_truthy _ Hy). cbn [andb].
    destruct Hp as [a [Ha _]]. destruct Hy as [b [Hb _]].
    cbn [candidate_of price yearLow] in *.
    unfold convertible in Hconv. rewrite Hb in Hconv.
    assert (Hlim : exists limit,
               float_binop fmul (dict_get d (lit "yearLow") (PInt 0)) (PFloat (dec 102 2))
               = Ok limit).
    { unfold float_binop. rewrite Hb. cbn [as_num to_float].
      destruct b as [z|f]; cbn [to_float].
      - unfold float_of_int. rewrite Hconv. cbn [rbind]. eexists. reflexivity.
      - cbn [rbind]. eexists. reflexivity. }
    destruct Hlim as [limit Hlim]. exists a, limit.
    rewrite Hlim. unfold py_le. rewrite Ha. repeat split.
  - exact Hexcl.
  - intros d H. apply Hexcl. cbn [candidate_of price yearLow]. unfold dict_get.
    destruct H as [H | H]; rewrite H; [left | right; left]; reflexivity.
Qed.

End Scanner.

Lemma get_initial_stocks_filter_witness :
  fst (get_initial_stocks Sample.env_up (Sample.world 0))
    = Ok (map candidate_of (filter is_candidate [Sample.abc; Sample.xyz]))
  /\ filter is_candidate [Sample.abc; Sample.xyz] = [Sample.abc].
Proof.
  split; [|vm_compute; reflexivity].
  assert (Hplain : Forall plain_quote [Sample.abc; Sample.xyz]).
  { repeat constructor; eexists; (split; [reflexivity | exact I]). }
  assert (Hcall : _make_api_call Sample.env_up
                    (quote_url Sample.env_up (self (Sample.world 0))) 3 (Sample.world 0)
                  = (Ok (PList [Sample.abc; Sample.xyz]),
                     snd (_make_api_call Sample.env_up Sample.url 3 (Sample.world 0)))).
  { vm_compute. reflexivity. }
  rewrite (proj1 (get_initial_stocks_filter Sample.env_up (Sample.world 0) _ _ Hcall Hplain)).
  reflexivity.
Defined.

(** A quote whose yearLow is a float, or an integer below [2^53] in
    magnitude, is plain. *)
Lemma plain_quote_small d :
  match dict_get d (lit "yearLow") (PInt 0) with
  | PInt z => - 2 ^ 53 < z < 2 ^ 53
  | _ => True
  end ->
  plain_quote (PDict d).
Proof.
  intros H. exists d. split; [reflexivity|]. unfold convertible.
  destruct (dict_get d (lit "yearLow") (PInt 0)) as [|[|]|z|f|s|l|d']; cbn [as_num Z.b2z];
    try exact I; try reflexivity.
  apply Z2SF_small. exact H.
Qed.

(** Why the snapshot has to be a list of plain quotes: one element that is
    not an object, or one integer yearLow too large for a float, raises
    past the inner handler and the scan returns the empty list. *)
Example scan_aborts_on_a_stray_element :
  fst (get_initial_stocks
         (Sample.env_with (PList [Sample.abc; PStr (lit "n/a")]) (Ok Sample.info_abc))
         (Sample.world 0))
    = Ok [].
Proof. vm_compute. reflexivity. Qed.

Example scan_aborts_on_a_huge_year_low :
  fst (get_initial_stocks
         (Sample.env_with (PList [Sample.abc; Sample.quote "BIG" (PInt 1) (PInt (10 ^ 400))])
                          (Ok Sample.info_abc))
         (Sample.world 0))
    = Ok [].
Proof. vm_compute. reflexivity. Qed.

(** A quote with a negative price is not excluded: the scan keeps it,
    since [-1.0] is truthy and [-1.0 <= 10.0 * 1.02]. *)
Lemma negative_price_is_kept :
  fst (get_initial_stocks (Sample.env_with (PList [Sample.neg]) (Ok Sample.info_abc))
                          (Sample.world 0))
    = Ok [ {| symbol := PStr (lit "NEG");
              price := PFloat (dec (-10) 1);
              yearLow := PFloat (dec 100 1) |} ]
  /\ num_leb (NFloat (dec (-10) 1)) (NInt 0) = true
  /\ num_ltb (NInt 0) (NFloat (dec (-10) 1)) = false.
Proof. vm_compute. repeat split. Qed.

(* ================================================================= *)
(** ** The notifier *)

Section Notifier.

Variable E : Env.

(** The notifier never raises, whatever the provider answers, and makes
    one delivery request. *)
Lemma send_whatsapp_eq stocks_data account_sid auth_token from_number to_number calls w :
  send_whatsapp E stocks_data account_sid auth_token from_number to_number calls w
    = (Ok tt, {| self := self w; trace := trace w ++ [delivery E stocks_data calls] |}).
Proof.
  destruct w as [s t]. unfold send_whatsapp, delivery. run.
  destruct (twilio_create E _ _ _ _ _); reflexivity.
Qed.

(** [C4] The notifier hands one message to the provider.  When the
    assembled body of the records is longer than 1600 characters, that
    message is the first 1500 characters of the body followed by the
    truncation notice, 1535 characters in all, hence at most 1600; when
    the body has at most 1600 characters, the message is the body
    unchanged. *)
Theorem send_whatsapp_truncation stocks_data account_sid auth_token from_number to_number
    calls w :
  let body := assembled E stocks_data calls in
  exists message,
    snd (send_whatsapp E stocks_data account_sid auth_token from_number to_number calls w)
      = {| self := self w;
           trace := trace w ++
             [EvTwilio (getenv E (lit "TWILIO_ACCOUNT_SID")) (getenv E (lit "TWILIO_AUTH_TOKEN"))
                       message
                       (getenv E (lit "TWILIO_FROM_NUMBER")) (getenv E (lit "TWILIO_TO_NUMBER"))] |}
    /\ (1600 < Z.of_nat (List.length body) ->
        message = firstn 1500 body ++ truncation_notice /\
        List.length message = 1535%nat /\
        Z.of_nat (List.length message) <= 1600)
    /\ (Z.of_nat (List.length body) <= 1600 -> message = body).
Proof.
  cbv zeta. exists (message_body E stocks_data calls).
  split; [rewrite send_whatsapp_eq; reflexivity|].
  unfold message_body, MAX_MESSAGE_LENGTH.
  set (body := assembled E stocks_data calls).
  split; intros H.
  - replace (1600 <? Z.of_nat (List.length body)) with true
      by (symmetry; apply Z.ltb_lt; exact H).
    change (Z.to_nat (1600 - 100)) with 1500%nat.
    assert (Hlen : List.length (firstn 1500 body ++ truncation_notice) = 1535%nat).
    { rewrite length_app, firstn_length_le by lia. reflexivity. }
    split; [reflexivity|]. split; [exact Hlen|]. rewrite Hlen. lia.
  - replace (1600 <? Z.of_nat (List.length body)) with false
      by (symmetry; apply Z.ltb_ge; exact H).
    reflexivity.
Qed.

(** [C10] The four credential and address parameters of [send_whatsapp]
    have no influence: two calls that differ only in them end in the same
    result and the same world, and the delivery request carries the four
    values of the process environment. *)
Theorem send_whatsapp_ignores_parameters stocks_data calls w
    account_sid auth_token from_number to_number
    account_sid' auth_token' from_number' to_number' :
  send_whatsapp E stocks_data account_sid auth_token from_number to_number calls w
    = send_whatsapp E stocks_data account_sid' auth_token' from_number' to_number' calls w
  /\
  snd (send_whatsapp E stocks_data account_sid auth_token from_number to_number calls w)
    = {| self := self w;
         trace := trace w ++
           [EvTwilio (getenv E (lit "TWILIO_ACCOUNT_SID")) (getenv E (lit "TWILIO_AUTH_TOKEN"))
                     (message_body E stocks_data calls)
                     (getenv E (lit "TWILIO_FROM_NUMBER")) (getenv E (lit "TWILIO_TO_NUMBER"))] |}.
Proof.
  rewrite !send_whatsapp_eq. split; reflexivity.
Qed.

End Notifier.

(** Twenty records make a body of more than 1600 characters; one record
    does not. *)
Lemma send_whatsapp_truncation_witness :
  1600 < Z.of_nat (List.length (assembled Sample.env_up (repeat Sample.record_abc 20) 1))
  /\ Z.of_nat (List.length (assembled Sample.env_up [Sample.record_abc] 1)) <= 1600
  /\ (exists message,
        snd (send_whatsapp Sample.env_up (repeat Sample.record_abc 20)
               PNone PNone PNone PNone 1 (Sample.world 1))
          = {| self := Sample.scanner 1;
               trace := [EvTwilio (PStr (lit "AC00")) (PStr (lit "secret")) message
                                  (PStr (lit "whatsapp:+100")) (PStr (lit "whatsapp:+200"))] |}
        /\ message = firstn 1500 (assembled Sample.env_up (repeat Sample.record_abc 20) 1)
                      ++ truncation_notice)
  /\ (exists message,
        snd (send_whatsapp Sample.env_up [Sample.record_abc]
               PNone PNone PNone PNone 1 (Sample.world 1))
          = {| self := Sample.scanner 1;
               trace := [EvTwilio (PStr (lit "AC00")) (PStr (lit "secret")) message
                                  (PStr (lit "whatsapp:+100")) (PStr (lit "whatsapp:+200"))] |}
        /\ message = assembled Sample.env_up [Sample.record_abc] 1).
Proof.
  assert (Hlong : 1600 < Z.of_nat (List.length
            (assembled Sample.env_up (repeat Sample.record_abc 20) 1)))
    by (vm_compute; reflexivity).
  assert (Hshort : Z.of_nat (List.length
            (assembled Sample.env_up [Sample.record_abc] 1)) <= 1600)
    by (vm_compute; discriminate).
  split; [exact Hlong|]. split; [exact Hshort|]. split.
  - destruct (send_whatsapp_truncation Sample.env_up (repeat Sample.record_abc 20)
                PNone PNone PNone PNone 1 (Sample.world 1)) as [message [Hsent [Hcut _]]].
    exists message. split; [exact Hsent | exact (proj1 (Hcut Hlong))].
  - destruct (send_whatsapp_truncation Sample.env_up [Sample.record_abc]
                PNone PNone PNone PNone 1 (Sample.world 1)) as [message [Hsent [_ Hkeep]]].
    exists message. split; [exact Hsent | exact (Hkeep Hshort)].
Defined.

(* ================================================================= *)
(** ** Invariants of a run *)

Section RunInvariants.

Variable E : Env.

Lemma bump_calls n s : api_calls (bump n s) = api_calls s + n.
Proof. reflexivity. Qed.

Lemma bump_bump n m s : bump n (bump m s) = bump (m + n) s.
Proof. unfold bump. cbn [api_key api_calls max_daily_calls]. f_equal. lia. Qed.

Lemma bump_0 s : bump 0 s = s.
Proof. destruct s. unfold bump. cbn [api_key api_calls max_daily_calls]. f_equal. lia. Qed.

Lemma check_api_quota_self w : self (snd (check_api_quota E w)) = self w.
Proof.
  destruct w as [s t]. unfold check_api_quota, check_api_quota_body. run.
  destruct (requests_get E (gets t) (quota_url E s) None) as [resp|e]; [|reflexivity].
  destruct (json resp) as [data|e]; [|reflexivity].
  destruct (py_contains (lit "remainingCalls") data) as [[|]|e]; try reflexivity.
  destruct (py_getitem data (lit "remainingCalls")) as [v|e]; [|reflexivity].
  destruct (py_gt v (NInt 5)); reflexivity.
Qed.

Lemma enrich_stock_data_self stocks w : self (snd (enrich_stock_data E stocks w)) = self w.
Proof.
  destruct (enrich_loop_spec E stocks [] w) as [added [_ [Hs _]]]. exact Hs.
Qed.

Lemma scan_stocks_self w :
  exists n, 0 <= n /\ self (snd (scan_stocks E w)) = bump n (self w).
Proof.
  unfold scan_stocks, bind.
  destruct (get_initial_stocks_self E w) as [n [Hn Hs]].
  destruct (get_initial_stocks E w) as [[stocks|e] w1]; cbn [snd] in Hs.
  - exists n. split; [exact Hn|]. rewrite enrich_stock_data_self. exact Hs.
  - exists n. split; [exact Hn | exact Hs].
Qed.

Lemma main_body_self w :
  exists n, 0 <= n /\ self (snd (main_body E w)) = bump n (self w).
Proof.
  unfold main_body, bind at 1.
  pose proof (check_api_quota_self w) as Hq.
  destruct (check_api_quota E w) as [[quota|e] w1]; cbn [snd] in Hq.
  2:{ exists 0. split; [lia|]. cbn [snd]. rewrite Hq, bump_0. reflexivity. }
  destruct quota; cbn [negb].
  2:{ exists 0. split; [lia|]. unfold ret. cbn [snd]. rewrite Hq, bump_0. reflexivity. }
  unfold try_except, bind.
  destruct (scan_stocks_self w1) as [n [Hn Hs]]. rewrite Hq in Hs.
  exists n. split; [exact Hn|].
  destruct (scan_stocks E w1) as [[[|r rest]|e] w2]; cbn [snd] in Hs.
  - unfold ret. exact Hs.
  - unfold get_self. rewrite send_whatsapp_eq. cbn [snd self]. exact Hs.
  - cbn [any_Exception]. unfold ret. exact Hs.
Qed.

(** [C8] (1) The enricher never raises and every record it returns
    carries the symbol of a candidate of its input list.  (2) The call
    counter never decreases across any operation of the program: the quota
    gate, the bounded API caller, the scan, the enricher, their
    composition, the notifier and the body of [main]; and in a scanner
    with ceiling 250, a pass of the retry loop started with the counter at
    250 or more, which would take it past the ceiling, raises the quota
    error out of the caller without sending a request. *)
Theorem run_invariants :
  (forall stocks w,
      exists records,
        fst (enrich_stock_data E stocks w) = Ok records /\
        Forall (fun r => exists c, In c stocks /\ Symbol r = symbol c) records)
  /\ counter_monotone (check_api_quota E)
  /\ (forall url retries, counter_monotone (_make_api_call E url retries))
  /\ counter_monotone (get_initial_stocks E)
  /\ (forall stocks, counter_monotone (enrich_stock_data E stocks))
  /\ counter_monotone (scan_stocks E)
  /\ (forall stocks_data sid token from_ to calls,
        counter_monotone (send_whatsapp E stocks_data sid token from_ to calls))
  /\ counter_monotone (main_body E)
  /\ (forall url retries fuel i w,
        max_daily_calls (self w) = 250 ->
        250 <= api_calls (self w) ->
        attempts E url retries (S fuel) i w
          = (Raise quota_error, {| self := bump 1 (self w); trace := trace w |})).
Proof.
  repeat match goal with |- _ /\ _ => split end.
  - intros stocks w. destruct (enrich_stock_data_spec E stocks w) as [records [Hr Hall]].
    exists records. split; [exact Hr|].
    eapply Forall_impl; [|exact Hall].
    intros r [c [answer [Hin Ho]]]. exists c. split; [exact Hin|].
    eapply enrich_outcome_symbol. exact Ho.
  - intros w. rewrite check_api_quota_self. lia.
  - intros url retries w.
    destruct (make_api_call_self E url retries w) as [n [Hn ->]]. rewrite bump_calls. lia.
  - intros w. destruct (get_initial_stocks_self E w) as [n [Hn ->]]. rewrite bump_calls. lia.
  - intros stocks w. rewrite enrich_stock_data_self. lia.
  - intros w. destruct (scan_stocks_self w) as [n [Hn ->]]. rewrite bump_calls. lia.
  - intros stocks_data sid token from_ to calls w. rewrite send_whatsapp_eq. cbn [snd self]. lia.
  - intros w. destruct (main_body_self w) as [n [Hn ->]]. rewrite bump_calls. lia.
  - intros url retries fuel i w Hm Hc.
    rewrite attempts_step, attempt_over_ceiling by lia. reflexivity.
Qed.

End RunInvariants.

(* ================================================================= *)
(** ** The end-to-end scenario and the limits of the enricher *)

(** The scenario of two quotes: only ABC passes the scan, it is enriched,
    and its distance from the low is negative, [-1.0], although it passed
    the filter. *)
Lemma distance_is_negative_below_the_low :
  filter is_candidate [Sample.abc; Sample.xyz] = [Sample.abc]
  /\ fst (scan_stocks Sample.env_up (Sample.world 0)) = Ok [Sample.record_abc]
  /\ distance_from_low (PFloat (dec 99 1)) (PFloat (dec 100 1)) = Ok (dec (-10) 1)
  /\ Distance_from_Low Sample.record_abc = py_str Sample.env_up (PFloat (dec (-10) 1)) ++ lit "%"
  /\ SFltb (dec (-10) 1) (Z2SF 0) = true.
Proof. vm_compute. repeat split. Qed.

(** A lookup that succeeds with a market cap in the band is not enough:
    when the summary is null, building the description raises and the
    candidate is skipped. *)
Lemma band_alone_does_not_enrich :
  yf_info (Sample.env_with Sample.snapshot (Ok Sample.info_null_summary)) 0 (PStr (lit "ABC"))
    = Ok Sample.info_null_summary
  /\ in_band (dict_get Sample.info_null_summary (lit "marketCap") (PInt 0)) = Ok true
  /\ fst (enrich_stock_data (Sample.env_with Sample.snapshot (Ok Sample.info_null_summary))
            [candidate_of Sample.abc] (Sample.world 0))
     = Ok [].
Proof. vm_compute. repeat split. Qed.

(** [C7] Without a business summary the description is ["N/A..."], not
    ["N/A"]: the default goes through the slice and the three dots like
    any summary. *)
Theorem description_without_summary :
  lookup (lit "longBusinessSummary") Sample.info_no_summary = None
  /\ exists r,
       fst (enrich_stock_data (Sample.env_with Sample.snapshot (Ok Sample.info_no_summary))
              [candidate_of Sample.abc] (Sample.world 0))
         = Ok [r]
       /\ Description r = lit "N/A..."
       /\ Description r <> lit "N/A".
Proof.
  split; [reflexivity|].
  eexists. split; [vm_compute; reflexivity|].
  split; [reflexivity | discriminate].
Qed.

(** A whole run on the sample environment: one quota request, one snapshot
    request with its throttle sleep, a metadata lookup for ABC alone, and
    one delivery; the counter ends at 1. *)
Example main_scenario :
  main Sample.env_up [] =
    (Ok tt,
     {| self := Sample.scanner 1;
        trace :=
          [EvGet (quota_url Sample.env_up (Sample.scanner 0)) None;
           EvGet Sample.url (Some 10);
           EvSleep (PFloat (dec 2 1));
           EvTicker (PStr (lit "ABC"));
           EvSleep (PFloat (dec 1 1));
           delivery Sample.env_up [Sample.record_abc] 1] |}).
Proof. vm_compute. reflexivity. Qed.

(* ================================================================= *)
(** ** Rounding does not lose a number that is not zero *)

Lemma shr_1_positive r q :
  shr_m r = Zpos q -> 1 < Zpos (digits2_pos q) ->
  exists q', shr_m (shr_1 r) = Zpos q' /\ Zpos (digits2_pos q') = Zpos (digits2_pos q) - 1.
Proof.
  destruct r as [m rb sb]. cbn [shr_m]. intros -> Hd.
  destruct q as [p|p|]; cbn [shr_1 shr_m digits2_pos] in *.
  - exists p. split; [reflexivity | lia].
  - exists p. split; [reflexivity | lia].
  - lia.
Qed.

Lemma shr_iter_positive n : forall r q,
  shr_m r = Zpos q -> Z.of_nat n < Zpos (digits2_pos q) ->
  exists q', shr_m (Nat.iter n shr_1 r) = Zpos q'
             /\ Zpos (digits2_pos q') = Zpos (digits2_pos q) - Z.of_nat n.
Proof.
  induction n as [|n IH]; intros r q Hm Hn.
  - exists q. cbn [Nat.iter]. split; [exact Hm | lia].
  - destruct (IH r q Hm ltac:(lia)) as [q1 [Hm1 Hd1]].
    cbn [Nat.iter].
    destruct (shr_1_positive _ q1 Hm1 ltac:(lia)) as [q2 [Hm2 Hd2]].
    exists q2. split; [exact Hm2 | lia].
Qed.

Lemma iter_pos_nat {A} (f : A -> A) k : forall x,
  iter_pos f k x = Nat.iter (Pos.to_nat k) f x.
Proof.
  induction k as [k IH|k IH|]; intros x; cbn [iter_pos].
  - rewrite !IH, Pos2Nat.inj_xI, <- Nat.iter_add.
    replace (S (2 * Pos.to_nat k)) with (Pos.to_nat k + Pos.to_nat k + 1)%nat by lia.
    rewrite (Nat.iter_add _ 1). reflexivity.
  - rewrite !IH, Pos2Nat.inj_xO, <- Nat.iter_add. f_equal. lia.
  - reflexivity.
Qed.

Lemma shr_positive r q e n :
  shr_m r = Zpos q -> n < Zpos (digits2_pos q) ->
  exists q',
    shr_m (fst (shr r e n)) = Zpos q'
    /\ Zpos (digits2_pos q') = Zpos (digits2_pos q) - Z.max 0 n
    /\ snd (shr r e n) = e + Z.max 0 n.
Proof.
  intros Hm Hn. destruct n as [|k|k]; cbn [shr fst snd].
  - exists q. split; [exact Hm | split; lia].
  - rewrite iter_pos_nat.
    destruct (shr_iter_positive (Pos.to_nat k) r q Hm) as [q' [Hm' Hd']]; [lia|].
    exists q'. split; [exact Hm' | split; lia].
  - exists q. split; [exact Hm | split; lia].
Qed.

Lemma shr_record_of_loc_m m l : shr_m (shr_record_of_loc m l) = m.
Proof. destruct l as [|[| |]]; reflexivity. Qed.

Lemma digits2_pos_succ q :
  Zpos (digits2_pos q) <= Zpos (digits2_pos (Pos.succ q)) <= Zpos (digits2_pos q) + 1.
Proof.
  induction q as [p IH|p IH|]; cbn [Pos.succ digits2_pos]; lia.
Qed.

Lemma round_nearest_even_positive q l :
  exists q1,
    round_nearest_even (Zpos q) l = Zpos q1
    /\ Zpos (digits2_pos q) <= Zpos (digits2_pos q1) <= Zpos (digits2_pos q) + 1.
Proof.
  assert (Hsucc : Zpos q + 1 = Zpos (Pos.succ q)) by lia.
  pose proof (digits2_pos_succ q) as Hd.
  destruct l as [|[| |]]; cbn [round_nearest_even].
  - exists q. split; [reflexivity | lia].
  - destruct (Z.even (Zpos q)).
    + exists q. split; [reflexivity | lia].
    + exists (Pos.succ q). split; [exact Hsucc | exact Hd].
  - exists q. split; [reflexivity | lia].
  - exists (Pos.succ q). split; [exact Hsucc | exact Hd].
Qed.

(** Rounding a positive mantissa never gives zero. *)
Lemma binary_round_aux_nonzero s p e l :
  -1074 <= e -> is_zero (binary_round_aux 53 1024 s (Zpos p) e l) = false.
Proof.
  intros He. unfold binary_round_aux, shr_fexp.
  set (n1 := fexp 53 1024 (Zdigits2 (Zpos p) + e) - e).
  assert (Hn1 : n1 < Zpos (digits2_pos p))
    by (unfold n1, fexp, emin; cbn [Zdigits2]; lia).
  destruct (shr_positive (shr_record_of_loc (Zpos p) l) p e n1
              (shr_record_of_loc_m _ _) Hn1) as [q [Hq [Hdq He']]].
  destruct (shr (shr_record_of_loc (Zpos p) l) e n1) as [mrs' e'] eqn:Hshr1.
  cbn [fst snd] in Hq, He'. rewrite Hq.
  destruct (round_nearest_even_positive q (loc_of_shr_record mrs')) as [q1 [Hr Hdq1]].
  rewrite Hr.
  set (n2 := fexp 53 1024 (Zdigits2 (Zpos q1) + e') - e').
  assert (Hn2 : n2 < Zpos (digits2_pos q1)).
  { unfold n2, fexp, emin. unfold n1, fexp, emin in He', Hdq.
    cbn [Zdigits2] in *. lia. }
  destruct (shr_positive (shr_record_of_loc (Zpos q1) loc_Exact) q1 e' n2
              (shr_record_of_loc_m _ _) Hn2) as [q2 [Hq2 _]].
  destruct (shr (shr_record_of_loc (Zpos q1) loc_Exact) e' n2) as [mrs'' e''].
  cbn [fst] in Hq2. rewrite Hq2.
  destruct (e'' <=? 1024 - 53); reflexivity.
Qed.

(** An integer that is not zero does not convert to a zero. *)
Lemma Z2SF_nonzero z : z <> 0 -> is_zero (Z2SF z) = false.
Proof.
  intros Hz. unfold Z2SF, binary_normalize.
  assert (Hround : forall s p, is_zero (binary_round 53 1024 s p 0) = false).
  { intros s p. unfold binary_round, shl_align.
    set (ex' := fexp 53 1024 (Zpos (digits2_pos p) + 0)).
    assert (Hex : -1074 <= ex') by (unfold ex', fexp, emin; lia).
    destruct (ex' - 0); apply binary_round_aux_nonzero; lia. }
  destruct z as [|p|p]; [destruct (Hz eq_refl) | apply Hround | apply Hround].
Qed.

(* ================================================================= *)
(** ** More on the bounded API caller *)

Section ApiCallerMore.

Variable E : Env.

(** [X1] With [retries] at zero or below the loop makes no pass: the caller
    raises its last-line error and leaves the counter and the world
    alone. *)
Theorem make_api_call_without_retries url retries w :
  retries <= 0 ->
  _make_api_call E url retries w = (Raise unknown_error, w).
Proof.
  intros H. unfold _make_api_call.
  replace (Z.to_nat retries) with 0%nat by lia. reflexivity.
Qed.

(** One pass either meets the ceiling, raising the quota error without a
    request, or sends exactly one request; either way the counter goes up
    by one. *)
Lemma attempt_account url retries i w :
  (max_daily_calls (self w) <= api_calls (self w) /\
   attempt E url retries i w
     = (Raise quota_error, {| self := bump 1 (self w); trace := trace w |}))
  \/
  (api_calls (self w) < max_daily_calls (self w) /\
   self (snd (attempt E url retries i w)) = bump 1 (self w) /\
   gets (trace (snd (attempt E url retries i w))) = S (gets (trace w))).
Proof.
  destruct (Z_le_gt_dec (max_daily_calls (self w)) (api_calls (self w))) as [Hover|Hunder].
  - left. split; [exact Hover|]. apply attempt_over_ceiling. exact Hover.
  - right. split; [lia|]. split; [apply attempt_self|].
    destruct w as [[key calls ceiling] t]. cbn [self trace api_calls max_daily_calls] in *.
    unfold attempt. run.
    replace (ceiling <? calls + 1) with false by (symmetry; apply Z.ltb_ge; lia).
    assert (H1 : gets (t ++ [EvGet url (Some 10)]) = S (gets t))
      by (rewrite gets_app; cbn [is_get]; lia).
    assert (H2 : forall e, is_get e = false ->
                 gets ((t ++ [EvGet url (Some 10)]) ++ [e]) = S (gets t))
      by (intros e He; rewrite gets_app, H1, He; lia).
    destruct (requests_get E (gets t) url (Some 10)) as [resp|e].
    + destruct (raise_for_status resp) as [[]|e].
      * destruct (float_binop fmul (PFloat (dec 2 1)) (PInt (i + 1))) as [secs|e].
        -- destruct (json resp) as [v|e]; [apply H2; reflexivity|].
           destruct (is_RequestException e); [|apply H2; reflexivity].
           destruct (i =? retries - 1); [apply H2; reflexivity|].
           cbn [trace]. rewrite gets_app. cbn [is_get]. rewrite H2 by reflexivity. lia.
        -- destruct (is_RequestException e); [|exact H1].
           destruct (i =? retries - 1); [exact H1 | apply H2; reflexivity].
      * destruct (is_RequestException e); [|exact H1].
        destruct (i =? retries - 1); [exact H1 | apply H2; reflexivity].
    + destruct (is_RequestException e); [|exact H1].
      destruct (i =? retries - 1); [exact H1 | apply H2; reflexivity].
Qed.

(** The account of a whole call: [n] passes were made, the counter went up
    by [n], and each pass sent one request, except a last one that met the
    ceiling. *)
Lemma attempts_account url retries fuel : forall i w,
  exists n,
    0 <= n <= Z.of_nat fuel /\
    self (snd (attempts E url retries fuel i w)) = bump n (self w) /\
    (forall v, fst (attempts E url retries fuel i w) = Ok v -> 1 <= n) /\
    ((Z.of_nat (gets (trace (snd (attempts E url retries fuel i w))))
        = Z.of_nat (gets (trace w)) + n /\
      (0 < n -> api_calls (self w) + n <= max_daily_calls (self w)))
     \/
     (Z.of_nat (gets (trace (snd (attempts E url retries fuel i w))))
        = Z.of_nat (gets (trace w)) + n - 1 /\
      1 <= n /\
      fst (attempts E url retries fuel i w) = Raise quota_error /\
      max_daily_calls (self w) <= api_calls (self w) + n - 1 /\
      (2 <= n -> api_calls (self w) + n - 1 <= max_daily_calls (self w)))).
Proof.
  induction fuel as [|fuel IH]; intros i w.
  - exists 0. cbn [attempts]. unfold raise. cbn [fst snd].
    split; [lia|]. split; [rewrite bump_0; reflexivity|].
    split; [discriminate|]. left. split; lia.
  - rewrite attempts_step.
    destruct (attempt_account url retries i w) as [[Hover Heq] | [Hunder [Hself Hgets]]].
    + rewrite Heq. exists 1. cbn [fst snd self trace].
      split; [lia|]. split; [reflexivity|]. split; [discriminate|].
      right. repeat split; lia.
    + destruct (attempt E url retries i w) as [[[v|]|e] w1]; cbn [fst snd] in *.
      * exists 1. split; [lia|]. split; [exact Hself|]. split; [lia|].
        left. split; lia.
      * destruct (IH (i + 1) w1) as [n [Hn [Hs [Hok Hacc]]]].
        exists (1 + n). split; [lia|].
        split; [rewrite Hs, Hself, bump_bump; reflexivity|].
        split; [intros v Hv; lia|].
        rewrite Hself in Hacc. unfold bump in Hacc.
        cbn [api_calls max_daily_calls] in Hacc.
        destruct Hacc as [[Hg Hb] | [Hg [H1 [Hq [Hm Hb]]]]].
        -- left. split; lia.
        -- right. repeat split; try lia. exact Hq.
      * exists 1. split; [lia|]. split; [exact Hself|]. split; [discriminate|].
        left. split; lia.
Qed.

(** [X2] The caller keeps within its two budgets.  It sends at most
    [retries] requests and never more than the calls left under the
    ceiling, and it returns a value only with the counter at or below the
    ceiling. *)
Theorem make_api_call_budget url retries w :
  Z.of_nat (gets (trace w)) <= Z.of_nat (gets (trace (snd (_make_api_call E url retries w))))
  /\ Z.of_nat (gets (trace (snd (_make_api_call E url retries w))))
       <= Z.of_nat (gets (trace w)) + Z.max 0 retries
  /\ Z.of_nat (gets (trace (snd (_make_api_call E url retries w))))
       <= Z.of_nat (gets (trace w))
          + Z.max 0 (max_daily_calls (self w) - api_calls (self w))
  /\ (forall v, fst (_make_api_call E url retries w) = Ok v ->
        api_calls (self (snd (_make_api_call E url retries w)))
          <= max_daily_calls (self (snd (_make_api_call E url retries w)))).
Proof.
  unfold _make_api_call.
  destruct (attempts_account url retries (Z.to_nat retries) 0 w)
    as [n [Hn [Hs [Hok Hacc]]]].
  rewrite Hs. unfold bump. cbn [api_calls max_daily_calls].
  assert (Hfuel : Z.of_nat (Z.to_nat retries) = Z.max 0 retries) by lia.
  destruct Hacc as [[Hg Hb] | [Hg [H1 [Hq [Hm Hb]]]]].
  - repeat split; try lia. intros v Hv. specialize (Hok v Hv). lia.
  - repeat split; try lia. intros v Hv. rewrite Hq in Hv. discriminate.
Qed.

Lemma attempts_after_failure url retries fuel i w m :
  api_calls (self w) < max_daily_calls (self w) ->
  transport_failure (requests_get E (gets (trace w)) url (Some 10)) m ->
  i <> retries - 1 ->
  attempts E url retries (S fuel) i w
    = attempts E url retries fuel (i + 1)
        {| self := bump 1 (self w);
           trace := (trace w ++ [EvGet url (Some 10)]) ++ [backoff i] |}.
Proof.
  intros Hc Hf Hi. rewrite attempts_step, (attempt_transport_failure E url retries i w m Hc Hf).
  replace (i =? retries - 1) with false by (symmetry; apply Z.eqb_neq; exact Hi).
  reflexivity.
Qed.

(** [X3] A first attempt that succeeds: one request, the throttle pause of
    0.2 seconds, the counter up by one, and the parsed value returned. *)
Theorem make_api_call_first_attempt url retries w v :
  0 < retries ->
  api_calls (self w) < max_daily_calls (self w) ->
  succeeds_with (requests_get E (gets (trace w)) url (Some 10)) v ->
  _make_api_call E url retries w
    = (Ok v,
       {| self := bump 1 (self w);
          trace := (trace w ++ [EvGet url (Some 10)]) ++ [EvSleep (PFloat (dec 2 1))] |}).
Proof.
  intros Hr Hc Hv. unfold _make_api_call.
  destruct (Z.to_nat retries) as [|fuel] eqn:Hfuel; [lia|].
  rewrite attempts_step.
  rewrite (attempt_success E url retries 0 w v (dec 2 1) Hc Hv)
    by (vm_compute; reflexivity).
  reflexivity.
Qed.

(** [X4] An exception of the attempt that is not a [RequestException],
    whether [requests.get], [raise_for_status] or [json] raises it, is not
    retried: it leaves the caller after one request, with the counter up
    by one. *)
Theorem make_api_call_other_exception url retries w e :
  0 < retries ->
  api_calls (self w) < max_daily_calls (self w) ->
  is_RequestException e = false ->
  (requests_get E (gets (trace w)) url (Some 10) = Raise e \/
   (exists resp, requests_get E (gets (trace w)) url (Some 10) = Ok resp /\
                 raise_for_status resp = Raise e) \/
   (exists resp, requests_get E (gets (trace w)) url (Some 10) = Ok resp /\
                 raise_for_status resp = Ok tt /\ json resp = Raise e)) ->
  fst (_make_api_call E url retries w) = Raise e
  /\ self (snd (_make_api_call E url retries w)) = bump 1 (self w)
  /\ gets (trace (snd (_make_api_call E url retries w))) = S (gets (trace w)).
Proof.
  intros Hr Hc He Hsrc. unfold _make_api_call.
  destruct (Z.to_nat retries) as [|fuel] eqn:Hfuel; [lia|].
  rewrite attempts_step.
  destruct (attempt_account url retries 0 w) as [[Hover _] | [_ [Hself Hgets]]]; [lia|].
  assert (Hfst : fst (attempt E url retries 0 w) = Raise e).
  { destruct w as [[key calls ceiling] t]. cbn [self trace api_calls max_daily_calls] in *.
    unfold attempt. run.
    replace (ceiling <? calls + 1) with false by (symmetry; apply Z.ltb_ge; lia).
    destruct Hsrc as [H | [[resp [H Hs]] | [resp [H [Hs Hj]]]]]; rewrite H.
    - rewrite He. reflexivity.
    - rewrite Hs, He. reflexivity.
    - rewrite Hs.
      replace (float_binop fmul (PFloat (dec 2 1)) (PInt (0 + 1))) with (Ok (dec 2 1))
        by (vm_compute; reflexivity).
      rewrite Hj, He. reflexivity. }
  destruct (attempt E url retries 0 w) as [[[v|]|e'] w1]; cbn [fst snd] in *;
    try discriminate.
  injection Hfst as ->. repeat split; assumption.
Qed.

(** [X5] The schedule of the retry loop.  Between failed attempts the
    caller sleeps 1 second, then 2; after a third failure it raises without
    sleeping; a success on the third attempt is followed by the throttle
    pause [0.2 * 3], which in binary64 is 0.6000000000000001. *)
Theorem make_api_call_schedule url w m1 m2 :
  api_calls (self w) + 3 <= max_daily_calls (self w) ->
  transport_failure (requests_get E (gets (trace w)) url (Some 10)) m1 ->
  transport_failure (requests_get E (S (gets (trace w))) url (Some 10)) m2 ->
  (forall m3,
      transport_failure (requests_get E (S (S (gets (trace w)))) url (Some 10)) m3 ->
      snd (_make_api_call E url 3 w)
        = {| self := bump 3 (self w);
             trace := trace w ++
               [EvGet url (Some 10); EvSleep (PInt 1);
                EvGet url (Some 10); EvSleep (PInt 2);
                EvGet url (Some 10)] |})
  /\
  (forall v,
      succeeds_with (requests_get E (S (S (gets (trace w)))) url (Some 10)) v ->
      snd (_make_api_call E url 3 w)
        = {| self := bump 3 (self w);
             trace := trace w ++
               [EvGet url (Some 10); EvSleep (PInt 1);
                EvGet url (Some 10); EvSleep (PInt 2);
                EvGet url (Some 10);
                EvSleep (PFloat (dec 6000000000000001 16))] |}).
Proof.
  intros Hc H1 H2.
  unfold _make_api_call. change (Z.to_nat 3) with 3%nat.
  rewrite (attempts_after_failure url 3 2 0 w m1) by (assumption || lia).
  set (w1 := {| self := bump 1 (self w); trace := _ |}).
  assert (Hg1 : gets (trace w1) = S (gets (trace w))).
  { unfold w1. cbn [trace]. rewrite !gets_app. cbn [is_get backoff]. lia. }
  rewrite (attempts_after_failure url 3 1 (0 + 1) w1 m2).
  2:{ unfold w1, bump. cbn [self api_calls max_daily_calls]. lia. }
  2:{ rewrite Hg1. exact H2. }
  2:{ lia. }
  set (w2 := {| self := bump 1 (self w1); trace := _ |}).
  assert (Hg2 : gets (trace w2) = S (S (gets (trace w)))).
  { unfold w2. cbn [trace]. rewrite !gets_app, Hg1. cbn [is_get backoff]. lia. }
  assert (Hc2 : api_calls (self w2) < max_daily_calls (self w2)).
  { unfold w2, w1, bump. cbn [self api_calls max_daily_calls]. lia. }
  assert (Hs2 : bump 1 (self w2) = bump 3 (self w)).
  { unfold w2, w1. cbn [self]. rewrite !bump_bump. reflexivity. }
  rewrite attempts_step. split.
  - intros m3 H3.
    rewrite (attempt_transport_failure E url 3 (0 + 1 + 1) w2 m3 Hc2)
      by (rewrite Hg2; exact H3).
    change (0 + 1 + 1 =? 3 - 1) with true. cbn [snd]. rewrite Hs2.
    f_equal. unfold w2, w1. cbn [trace]. rewrite <- !app_assoc. reflexivity.
  - intros v Hv.
    rewrite (attempt_success E url 3 (0 + 1 + 1) w2 v (dec 6000000000000001 16) Hc2).
    + cbn [snd]. rewrite Hs2. f_equal. unfold w2, w1. cbn [trace].
      rewrite <- !app_assoc. reflexivity.
    + rewrite Hg2. exact Hv.
    + vm_compute. reflexivity.
Qed.

(** [X6] The ceiling cuts a retry short.  When the call in hand is the last
    one under the ceiling and its attempt fails at transport level, the
    caller sleeps its first back-off and then raises the quota error, not
    the transport error: the second pass is stopped before its request. *)
Theorem make_api_call_ceiling_mid_retry url retries w m :
  1 < retries ->
  api_calls (self w) + 1 = max_daily_calls (self w) ->
  transport_failure (requests_get E (gets (trace w)) url (Some 10)) m ->
  _make_api_call E url retries w
    = (Raise quota_error,
       {| self := bump 2 (self w);
          trace := trace w ++ [EvGet url (Some 10); EvSleep (PInt 1)] |}).
Proof.
  intros Hr Hc Hf. unfold _make_api_call.
  destruct (Z.to_nat retries) as [|[|fuel]] eqn:Hfuel; try lia.
  rewrite (attempts_after_failure url retries (S fuel) 0 w m) by (assumption || lia).
  rewrite attempts_step, attempt_over_ceiling
    by (unfold bump; cbn [self api_calls max_daily_calls]; lia).
  cbn [self trace]. rewrite bump_bump, <- app_assoc. reflexivity.
Qed.

End ApiCallerMore.

(* ================================================================= *)
(** ** More on the quota gate *)

Section QuotaGateMore.

Variable E : Env.

(** [X7] For an integer [remainingCalls] the gate answers [remainingCalls > 5]
    exactly, whatever the status of the response (the gate does not call
    [raise_for_status]); the request is made without a timeout and is not
    counted in [api_calls]. *)
Theorem check_api_quota_integer w resp d z :
  requests_get E (gets (trace w)) (quota_url E (self w)) None = Ok resp ->
  json resp = Ok (PDict d) ->
  lookup (lit "remainingCalls") d = Some (PInt z) ->
  check_api_quota E w
    = (Ok (5 <? z),
       {| self := self w; trace := trace w ++ [EvGet (quota_url E (self w)) None] |}).
Proof.
  destruct w as [s t]. cbn [self trace]. intros Hget Hjson Hl.
  unfold check_api_quota, check_api_quota_body. run.
  rewrite Hget, Hjson. cbn [py_contains py_getitem]. rewrite Hl.
  reflexivity.
Qed.

End QuotaGateMore.

(* ================================================================= *)
(** ** More on the candidate scan *)

Lemma subseq_refl {A} (l : list A) : subseq l l.
Proof. induction l; [constructor | apply subseq_take; assumption]. Qed.

Lemma subseq_nil_l {A} (l : list A) : subseq [] l.
Proof. induction l; constructor; assumption. Qed.

Lemma subseq_filter {A} (p : A -> bool) (l : list A) : subseq (filter p l) l.
Proof.
  induction l as [|x l IH]; cbn [filter]; [constructor|].
  destruct (p x); [apply subseq_take | apply subseq_skip]; exact IH.
Qed.

Lemma subseq_map {A B} (f : A -> B) (l1 l2 : list A) :
  subseq l1 l2 -> subseq (map f l1) (map f l2).
Proof.
  induction 1; cbn [map];
    [constructor | apply subseq_skip; assumption | apply subseq_take; assumption].
Qed.

Lemma subseq_app {A} (a1 a2 b1 b2 : list A) :
  subseq a1 a2 -> subseq b1 b2 -> subseq (a1 ++ b1) (a2 ++ b2).
Proof.
  induction 1; intros Hb; cbn [app];
    [exact Hb | apply subseq_skip; auto | apply subseq_take; auto].
Qed.

Lemma subseq_length {A} (l1 l2 : list A) :
  subseq l1 l2 -> (List.length l1 <= List.length l2)%nat.
Proof. induction 1; cbn [List.length]; lia. Qed.

Section ScannerMore.

Variable E : Env.

(** What the body of the inner [try] does on any quote: it appends the
    quote's fields only when the test holds, and when it ends without
    appending, or raises what the inner handler catches, the test fails. *)
Lemma scan_quote_sound q :
  match scan_quote q with
  | Ok (Some c) => c = candidate_of q /\ is_candidate q = true
  | Ok None => is_candidate q = false
  | Raise e => is_ValueError_or_TypeError e = true -> is_candidate q = false
  end.
Proof.
  destruct q as [| | | | | |d]; try (cbn; discriminate).
  unfold is_candidate, near_year_low, scan_quote.
  cbn [py_get rbind candidate_of price yearLow].
  set (p := dict_get d (lit "price") (PInt 0)).
  set (yl := dict_get d (lit "yearLow") (PInt 0)).
  destruct (truthy p); [|reflexivity].
  destruct (truthy yl); [|reflexivity].
  cbn [andb].
  destruct (float_binop fmul yl (PFloat (dec 102 2))) as [limit|e]; cbn [rbind].
  - unfold py_le. destruct (as_num p) as [a|]; cbn [rbind].
    + destruct (num_leb a (NFloat limit)); [split|]; reflexivity.
    + reflexivity.
  - reflexivity.
Qed.

(** A scan that completes returns the filtered quotes, all of them. *)
Lemma scan_quotes_complete quotes : forall acc l,
  scan_quotes quotes acc = Ok l ->
  l = acc ++ map candidate_of (filter is_candidate quotes).
Proof.
  induction quotes as [|q rest IH]; intros acc l.
  - cbn. rewrite app_nil_r. congruence.
  - cbn [scan_quotes filter]. pose proof (scan_quote_sound q) as Hs.
    destruct (scan_quote q) as [[c|]|e].
    + destruct Hs as [-> ->]. intros H. apply IH in H. rewrite H.
      cbn [map]. rewrite <- app_assoc. reflexivity.
    + rewrite Hs. apply IH.
    + destruct (is_ValueError_or_TypeError e); [|discriminate].
      rewrite (Hs eq_refl). apply IH.
Qed.

Lemma is_candidate_fields q :
  is_candidate q = true ->
  truthy (price (candidate_of q)) = true /\
  truthy (yearLow (candidate_of q)) = true /\
  exists a limit,
    as_num (price (candidate_of q)) = Some a /\
    float_binop fmul (yearLow (candidate_of q)) (PFloat (dec 102 2)) = Ok limit /\
    num_leb a (NFloat limit) = true.
Proof.
  unfold is_candidate, near_year_low.
  destruct (truthy (price (candidate_of q))); [|discriminate].
  destruct (truthy (yearLow (candidate_of q))); [|discriminate].
  cbn [andb].
  destruct (float_binop fmul _ _) as [limit|e]; [|discriminate].
  unfold py_le. destruct (as_num (price (candidate_of q))) as [a|]; [|discriminate].
  intros H. split; [reflexivity|]. split; [reflexivity|].
  exists a, limit. repeat split. exact H.
Qed.

Lemma get_initial_stocks_cases w quotes w' :
  _make_api_call E (quote_url E (self w)) 3 w = (Ok (PList quotes), w') ->
  get_initial_stocks E w = (Ok (map candidate_of (filter is_candidate quotes)), w')
  \/ get_initial_stocks E w = (Ok [], w').
Proof.
  intros Hcall. rewrite get_initial_stocks_eq, Hcall. cbn [py_iter].
  destruct (scan_quotes quotes []) as [l|e] eqn:Hscan.
  - apply scan_quotes_complete in Hscan. cbn [app] in Hscan. subst l. left. reflexivity.
  - right. reflexivity.
Qed.

Lemma get_initial_stocks_total w :
  exists stocks, fst (get_initial_stocks E w) = Ok stocks.
Proof.
  rewrite get_initial_stocks_eq.
  destruct (_make_api_call E (quote_url E (self w)) 3 w) as [[quotes|e] w'];
    eexists; reflexivity.
Qed.

(** [X8] The scan never raises and costs what its one API call costs.  When
    that call raises, whatever the exception, the quota error included,
    the scan returns the empty list. *)
Theorem get_initial_stocks_degrades w :
  (exists stocks, fst (get_initial_stocks E w) = Ok stocks)
  /\ snd (get_initial_stocks E w) = snd (_make_api_call E (quote_url E (self w)) 3 w)
  /\ (forall e, fst (_make_api_call E (quote_url E (self w)) 3 w) = Raise e ->
        fst (get_initial_stocks E w) = Ok []).
Proof.
  rewrite get_initial_stocks_eq.
  destruct (_make_api_call E (quote_url E (self w)) 3 w) as [[quotes|e] w']; cbn [fst snd].
  - split; [eexists; reflexivity|]. split; [reflexivity | discriminate].
  - split; [eexists; reflexivity|]. split; reflexivity.
Qed.

(** [X9] A snapshot that is not a JSON array (an error object, a string, a
    number, null) yields no candidate. *)
Theorem get_initial_stocks_not_a_list w v w' :
  _make_api_call E (quote_url E (self w)) 3 w = (Ok v, w') ->
  (forall quotes, v <> PList quotes) ->
  get_initial_stocks E w = (Ok [], w').
Proof.
  intros Hcall Hv. rewrite get_initial_stocks_eq, Hcall. f_equal. f_equal.
  destruct v as [| | | |s|l|d]; try reflexivity.
  - cbn [py_iter]. destruct s as [|c s]; reflexivity.
  - destruct (Hv l eq_refl).
  - cbn [py_iter]. destruct d as [|[k x] d]; reflexivity.
Qed.

(** [X10] All or nothing, and sound.  On a snapshot that is an array, the
    scan returns either every quote that passes the test, in order, or
    (when one element raises past the inner handler) nothing.  So every
    candidate returned is made of the fields of a quote of the snapshot,
    its price and yearLow are numbers that are not zero, and
    [price <= yearLow * 1.02] holds. *)
Theorem get_initial_stocks_sound w quotes w' :
  _make_api_call E (quote_url E (self w)) 3 w = (Ok (PList quotes), w') ->
  exists stocks,
    get_initial_stocks E w = (Ok stocks, w')
    /\ (stocks = map candidate_of (filter is_candidate quotes) \/ stocks = [])
    /\ subseq stocks (map candidate_of quotes)
    /\ Forall (fun c =>
         (exists q, In q quotes /\ c = candidate_of q) /\
         truthy (price c) = true /\ truthy (yearLow c) = true /\
         exists a limit,
           as_num (price c) = Some a /\
           float_binop fmul (yearLow c) (PFloat (dec 102 2)) = Ok limit /\
           num_leb a (NFloat limit) = true) stocks.
Proof.
  intros Hcall. rewrite get_initial_stocks_eq, Hcall. cbn [py_iter].
  destruct (scan_quotes quotes []) as [l|e] eqn:Hscan.
  - apply scan_quotes_complete in Hscan. cbn [app] in Hscan. subst l.
    eexists. split; [reflexivity|]. split; [left; reflexivity|].
    split; [apply subseq_map, subseq_filter|].
    apply Forall_forall. intros c Hin.
    apply in_map_iff in Hin as [q [<- Hq]]. apply filter_In in Hq as [Hq Hcand].
    split; [exists q; split; [exact Hq | reflexivity]|].
    apply is_candidate_fields. exact Hcand.
  - exists []. split; [reflexivity|]. split; [right; reflexivity|].
    split; [apply subseq_nil_l | constructor].
Qed.

End ScannerMore.

(* ================================================================= *)
(** ** More on the enricher *)

Section EnricherMore.

Variable E : Env.

(** The loop in full: its result and the world it leaves. *)
Lemma enrich_loop_full stocks : forall acc w,
  enrich_loop E stocks acc w
    = (Ok (acc ++ outcomes E (tickers (trace w)) stocks),
       {| self := self w;
          trace := trace w ++ enrich_events E (tickers (trace w)) stocks |}).
Proof.
  induction stocks as [|stock rest IH]; intros acc w.
  - cbn [enrich_loop outcomes enrich_events]. unfold ret. rewrite !app_nil_r.
    destruct w; reflexivity.
  - cbn [enrich_loop outcomes enrich_events]. unfold bind. rewrite enrich_one_eq. cbv zeta.
    rewrite IH. cbn [self trace].
    assert (Hk : tickers ((trace w ++ [EvTicker (symbol stock)])
                          ++ match enrich_outcome E stock
                                     (yf_info E (tickers (trace w)) (symbol stock)) with
                             | Some _ => [EvSleep (PFloat (dec 1 1))]
                             | None => []
                             end)
                 = S (tickers (trace w))).
    { destruct (enrich_outcome E stock _).
      - rewrite !tickers_app. cbn [is_ticker]. lia.
      - rewrite app_nil_r, tickers_app. cbn [is_ticker]. lia. }
    rewrite Hk. f_equal.
    + rewrite <- app_assoc. reflexivity.
    + f_equal. rewrite <- !app_assoc. reflexivity.
Qed.


Lemma enrich_events_shape k stocks :
  filter is_ticker (enrich_events E k stocks) = map (fun c => EvTicker (symbol c)) stocks
  /\ filter is_get (enrich_events E k stocks) = []
  /\ filter is_twilio (enrich_events E k stocks) = []
  /\ filter is_sleep (enrich_events E k stocks)
     = repeat (EvSleep (PFloat (dec 1 1))) (List.length (outcomes E k stocks)).
Proof.
  revert k. induction stocks as [|stock rest IH]; intros k.
  - repeat split.
  - cbn [enrich_events outcomes map]. destruct (IH (S k)) as [Ht [Hg [Hw Hs]]].
    destruct (enrich_outcome E stock _); cbn [option_list app filter is_ticker is_get
      is_twilio is_sleep List.length repeat]; rewrite Ht, Hg, Hw, Hs; repeat split.
Qed.


Lemma enrich_loop_app a : forall b acc w,
  enrich_loop E (a ++ b) acc w
    = match enrich_loop E a acc w with
      | (Ok l, w1) => enrich_loop E b l w1
      | (Raise e, w1) => (Raise e, w1)
      end.
Proof.
  induction a as [|stock rest IH]; intros b acc w.
  - reflexivity.
  - cbn [app enrich_loop]. unfold bind.
    destruct (enrich_one E stock acc w) as [[l|e] w1]; [apply IH | reflexivity].
Qed.

(** [X12] Enriching a list in two parts, one after the other, gives the same
    records and the same world as enriching it whole: a candidate's outcome
    does not depend on the candidates around it, only on the answers of the
    provider. *)
Theorem enrich_stock_data_app a b w :
  exists ra rb w1 w2,
    enrich_stock_data E a w = (Ok ra, w1)
    /\ enrich_stock_data E b w1 = (Ok rb, w2)
    /\ enrich_stock_data E (a ++ b) w = (Ok (ra ++ rb), w2).
Proof.
  unfold enrich_stock_data. rewrite enrich_loop_app.
  rewrite (enrich_loop_full a [] w). cbn [app].
  eexists _, _, _, _. split; [reflexivity|].
  rewrite !enrich_loop_full. cbn [app self trace]. split; reflexivity.
Qed.

Lemma outcomes_subseq k stocks :
  subseq (map Symbol (outcomes E k stocks)) (map symbol stocks).
Proof.
  revert k. induction stocks as [|stock rest IH]; intros k; cbn [outcomes map].
  - constructor.
  - destruct (enrich_outcome E stock _) as [r|] eqn:Ho; cbn [option_list app map].
    + rewrite (enrich_outcome_symbol E stock _ r Ho). apply subseq_take, IH.
    + apply subseq_skip, IH.
Qed.

(** [X13] The records come in the order of the candidates: the symbols of the
    records are the symbols of the candidates with some left out. *)
Theorem enrich_stock_data_order stocks w :
  exists records,
    fst (enrich_stock_data E stocks w) = Ok records
    /\ subseq (map Symbol records) (map symbol stocks).
Proof.
  unfold enrich_stock_data. rewrite enrich_loop_full. cbn [app fst].
  eexists. split; [reflexivity | apply outcomes_subseq].
Qed.

Lemma build_stock_info_description stock info cap r :
  build_stock_info E stock info cap = Ok r -> description info = Ok (Description r).
Proof.
  unfold build_stock_info, rbind.
  destruct (py_truediv cap _); [|discriminate].
  destruct (py_round2 (price stock)); [|discriminate].
  destruct (py_round2 (yearLow stock)); [|discriminate].
  destruct (distance_from_low _ _); [|discriminate].
  destruct (description info) as [descr|]; [|discriminate].
  intros H. injection H as <-. reflexivity.
Qed.

(** [X14] In every record the description is at most 200 characters of text
    followed by three dots, so at most 203 characters; the dots are there
    even when the text is short and nothing was cut. *)
Theorem description_is_bounded stocks w :
  exists records,
    fst (enrich_stock_data E stocks w) = Ok records
    /\ Forall (fun r =>
                 (exists text, Description r = text ++ lit "..."
                               /\ (List.length text <= 200)%nat)
                 /\ (List.length (Description r) <= 203)%nat)
              records.
Proof.
  destruct (enrich_stock_data_spec E stocks w) as [records [Hr Hall]].
  exists records. split; [exact Hr|].
  eapply Forall_impl; [|exact Hall].
  intros r [c [answer [_ Ho]]].
  apply enrich_outcome_build in Ho as [info [_ [_ Hb]]].
  apply build_stock_info_description in Hb.
  unfold description in Hb.
  destruct (dict_get info (lit "longBusinessSummary") (PStr (lit "N/A")));
    try discriminate.
  assert (Hlen : (List.length (firstn 200 s) <= 200)%nat) by apply firstn_le_length.
  remember (firstn 200 s) as text eqn:Htext. clear Htext.
  injection Hb as <-.
  split.
  - exists text. split; [reflexivity | exact Hlen].
  - rewrite length_app.
    replace (List.length (lit "...")) with 3%nat by reflexivity. lia.
Qed.

Lemma outcomes_nth stocks : forall k r,
  In r (outcomes E k stocks) ->
  exists i stock,
    nth_error stocks i = Some stock
    /\ enrich_outcome E stock (yf_info E (k + i) (symbol stock)) = Some r.
Proof.
  induction stocks as [|stock rest IH]; intros k r Hin; cbn [outcomes] in Hin.
  - destruct Hin.
  - apply in_app_or in Hin as [Hin | Hin].
    + destruct (enrich_outcome E stock _) as [r'|] eqn:Ho; cbn [option_list] in Hin;
        [|destruct Hin].
      destruct Hin as [<- | []]. exists 0%nat, stock.
      rewrite Nat.add_0_r. split; [reflexivity | exact Ho].
    + destruct (IH (S k) r Hin) as [i [c [Hnth Ho]]].
      exists (S i), c. rewrite Nat.add_succ_r. split; [exact Hnth | exact Ho].
Qed.

Lemma build_stock_info_fields stock info cap r :
  build_stock_info E stock info cap = Ok r ->
  (exists millions,
      py_truediv cap (PFloat (Z2SF 1000000)) = Ok millions /\
      Market_Cap r = lit "$" ++ format_1f E millions ++ lit "M")
  /\ py_round2 (price stock) = Ok (Current_Price r)
  /\ py_round2 (yearLow stock) = Ok (Low_52_Week r)
  /\ Company_Name r = dict_get info (lit "longName") (PStr (lit "N/A"))
  /\ Industry r = dict_get info (lit "industry") (PStr (lit "N/A"))
  /\ Sector r = dict_get info (lit "sector") (PStr (lit "N/A"))
  /\ Volume r = dict_get info (lit "volume") (PInt 0).
Proof.
  unfold build_stock_info, rbind.
  destruct (py_truediv cap _) as [millions|]; [|discriminate].
  destruct (py_round2 (price stock)); [|discriminate].
  destruct (py_round2 (yearLow stock)); [|discriminate].
  destruct (distance_from_low _ _); [|discriminate].
  destruct (description info); [|discriminate].
  intros H. injection H as <-. cbn.
  split; [exists millions; split; reflexivity|]. repeat split.
Qed.

(** [X15] What a record holds.  Every record the enricher returns comes from
    one candidate of the input and the answer of that candidate's metadata
    lookup, whose market cap is in the band; its prices are the candidate's
    rounded to two decimals, its market cap text is a dollar sign, the cap
    in millions with one decimal, and an M, and the name, industry and
    sector default to N/A and the volume to 0 when the answer lacks them. *)
Theorem enrich_stock_data_fields stocks w :
  exists records,
    fst (enrich_stock_data E stocks w) = Ok records
    /\ Forall (fun r =>
         exists i stock info,
           nth_error stocks i = Some stock
           /\ yf_info E (tickers (trace w) + i) (symbol stock) = Ok info
           /\ in_band (dict_get info (lit "marketCap") (PInt 0)) = Ok true
           /\ Symbol r = symbol stock
           /\ py_round2 (price stock) = Ok (Current_Price r)
           /\ py_round2 (yearLow stock) = Ok (Low_52_Week r)
           /\ (exists millions,
                 py_truediv (dict_get info (lit "marketCap") (PInt 0))
                            (PFloat (Z2SF 1000000)) = Ok millions /\
                 Market_Cap r = lit "$" ++ format_1f E millions ++ lit "M")
           /\ Company_Name r = dict_get info (lit "longName") (PStr (lit "N/A"))
           /\ Industry r = dict_get info (lit "industry") (PStr (lit "N/A"))
           /\ Sector r = dict_get info (lit "sector") (PStr (lit "N/A"))
           /\ Volume r = dict_get info (lit "volume") (PInt 0))
         records.
Proof.
  unfold enrich_stock_data. rewrite enrich_loop_full. cbn [app fst].
  eexists. split; [reflexivity|].
  apply Forall_forall. intros r Hin.
  apply outcomes_nth in Hin as [i [stock [Hnth Ho]]].
  pose proof (enrich_outcome_symbol E stock _ r Ho) as Hsym.
  apply enrich_outcome_build in Ho as [info [Hans [Hband Hb]]].
  apply build_stock_info_fields in Hb as [Hcap [Hp [Hl [Hn [Hi [Hs Hv]]]]]].
  exists i, stock, info. repeat split; assumption.
Qed.

End EnricherMore.

(* ================================================================= *)
(** ** More on the notifier *)

Section NotifierMore.

Variable E : Env.

Lemma fold_left_append {A} (f : A -> pystr) (l : list A) : forall init,
  fold_left (fun body x => body ++ f x) l init = init ++ List.concat (map f l).
Proof.
  induction l as [|x l IH]; intros init; cbn [fold_left map List.concat].
  - rewrite app_nil_r. reflexivity.
  - rewrite IH, <- app_assoc. reflexivity.
Qed.

Lemma assembled_eq stocks_data calls :
  assembled E stocks_data calls
    = header ++ List.concat (map (stock_lines E) stocks_data) ++ footer E calls.
Proof.
  unfold assembled. rewrite fold_left_append, <- app_assoc. reflexivity.
Qed.

Lemma message_body_length stocks_data calls :
  (List.length (message_body E stocks_data calls) <= 1600)%nat.
Proof.
  unfold message_body, MAX_MESSAGE_LENGTH.
  destruct (1600 <? Z.of_nat (List.length (assembled E stocks_data calls))) eqn:Hlong.
  - apply Z.ltb_lt in Hlong. change (Z.to_nat (1600 - 100)) with 1500%nat.
    rewrite length_app, firstn_length_le by lia.
    replace (List.length truncation_notice) with 35%nat by reflexivity. lia.
  - apply Z.ltb_ge in Hlong. lia.
Qed.

(** [X16] Whatever the records and whatever the provider does, [send_whatsapp]
    returns normally: an exception of the delivery is swallowed.  It makes
    one delivery request, and the message of that request never has more
    than 1600 characters. *)
Theorem send_whatsapp_is_safe stocks_data account_sid auth_token from_number to_number
    calls w :
  exists message,
    send_whatsapp E stocks_data account_sid auth_token from_number to_number calls w
      = (Ok tt,
         {| self := self w;
            trace := trace w ++
              [EvTwilio (getenv E (lit "TWILIO_ACCOUNT_SID"))
                        (getenv E (lit "TWILIO_AUTH_TOKEN"))
                        message
                        (getenv E (lit "TWILIO_FROM_NUMBER"))
                        (getenv E (lit "TWILIO_TO_NUMBER"))] |})
    /\ (List.length message <= 1600)%nat.
Proof.
  exists (message_body E stocks_data calls).
  split; [apply send_whatsapp_eq | apply message_body_length].
Qed.

(** [X17] The banner always opens the message, truncated or not; and a
    message that is not truncated is the banner, the five-line block of
    each record in order, and the footer with the time and the number of
    calls. *)
Theorem message_body_layout stocks_data calls :
  (exists rest, message_body E stocks_data calls = header ++ rest)
  /\ (Z.of_nat (List.length (assembled E stocks_data calls)) <= 1600 ->
      message_body E stocks_data calls
        = header ++ List.concat (map (stock_lines E) stocks_data)
          ++ lit "Generated: " ++ strftime_now E ++ nl
          ++ lit "FMP API Calls Used: " ++ str_of_int calls).
Proof.
  unfold message_body, MAX_MESSAGE_LENGTH. rewrite assembled_eq. split.
  - destruct (1600 <? _).
    + change (Z.to_nat (1600 - 100)) with 1500%nat.
      rewrite firstn_app, firstn_all2
        by (replace (List.length header) with 40%nat by reflexivity; lia).
      eexists. rewrite <- app_assoc. reflexivity.
    + eexists. reflexivity.
  - intros H.
    replace (1600 <? _) with false by (symmetry; apply Z.ltb_ge; exact H).
    reflexivity.
Qed.

End NotifierMore.

(* ================================================================= *)
(** ** The composition: [scan_stocks] and [main] *)

Section Orchestration.

Variable E : Env.

Lemma attempt_trace url retries i w :
  exists events,
    trace (snd (attempt E url retries i w)) = trace w ++ events
    /\ Forall (fun e => net_event e = true) events.
Proof.
  destruct w as [[key calls ceiling] t]. unfold attempt. run.
  assert (F0 : Forall (fun e => net_event e = true) []) by constructor.
  assert (F1 : Forall (fun e => net_event e = true) [EvGet url (Some 10)])
    by (repeat constructor).
  assert (F2 : forall v, Forall (fun e => net_event e = true)
                                [EvGet url (Some 10); EvSleep v])
    by (intros; repeat constructor).
  assert (F3 : forall v v', Forall (fun e => net_event e = true)
                                   [EvGet url (Some 10); EvSleep v; EvSleep v'])
    by (intros; repeat constructor).
  destruct (ceiling <? calls + 1).
  { exists []. rewrite app_nil_r. split; [reflexivity | exact F0]. }
  destruct (requests_get E (gets t) url (Some 10)) as [resp|e].
  - destruct (raise_for_status resp) as [[]|e].
    + destruct (float_binop fmul (PFloat (dec 2 1)) (PInt (i + 1))) as [secs|e].
      * destruct (json resp) as [v|e].
        { eexists. rewrite <- app_assoc. split; [reflexivity | apply F2]. }
        destruct (is_RequestException e).
        2:{ eexists. rewrite <- app_assoc. split; [reflexivity | apply F2]. }
        destruct (i =? retries - 1).
        { eexists. rewrite <- app_assoc. split; [reflexivity | apply F2]. }
        eexists. cbn [snd trace]. rewrite <- !app_assoc. split; [reflexivity | apply F3].
      * destruct (is_RequestException e).
        2:{ eexists. split; [reflexivity | exact F1]. }
        destruct (i =? retries - 1).
        { eexists. split; [reflexivity | exact F1]. }
        eexists. cbn [snd trace]. rewrite <- app_assoc. split; [reflexivity | apply F2].
    + destruct (is_RequestException e).
      2:{ eexists. split; [reflexivity | exact F1]. }
      destruct (i =? retries - 1).
      { eexists. split; [reflexivity | exact F1]. }
      eexists. cbn [snd trace]. rewrite <- app_assoc. split; [reflexivity | apply F2].
  - destruct (is_RequestException e).
    2:{ eexists. split; [reflexivity | exact F1]. }
    destruct (i =? retries - 1).
    { eexists. split; [reflexivity | exact F1]. }
    eexists. cbn [snd trace]. rewrite <- app_assoc. split; [reflexivity | apply F2].
Qed.

Lemma attempts_trace url retries fuel : forall i w,
  exists events,
    trace (snd (attempts E url retries fuel i w)) = trace w ++ events
    /\ Forall (fun e => net_event e = true) events.
Proof.
  induction fuel as [|fuel IH]; intros i w.
  - exists []. cbn [attempts]. unfold raise. cbn [snd]. rewrite app_nil_r.
    split; [reflexivity | constructor].
  - rewrite attempts_step.
    destruct (attempt_trace url retries i w) as [ev1 [Ht1 Hf1]].
    destruct (attempt E url retries i w) as [[[v|]|e] w1]; cbn [snd] in *.
    + exists ev1. split; assumption.
    + destruct (IH (i + 1) w1) as [ev2 [Ht2 Hf2]].
      exists (ev1 ++ ev2). rewrite Ht2, Ht1, <- app_assoc.
      split; [reflexivity | apply Forall_app; split; assumption].
    + exists ev1. split; assumption.
Qed.

Lemma net_events_filter events :
  Forall (fun e => net_event e = true) events ->
  filter is_twilio events = [] /\ filter is_ticker events = [].
Proof.
  induction 1 as [|e l He _ [IH1 IH2]]; [split; reflexivity|].
  cbn [filter]. rewrite IH1, IH2.
  destruct e; cbn in He; try discriminate; split; reflexivity.
Qed.

Lemma subseq_trans {A} (l1 l2 l3 : list A) :
  subseq l1 l2 -> subseq l2 l3 -> subseq l1 l3.
Proof.
  intros H12 H23. revert l1 H12.
  induction H23 as [|x l2 l3 H IH|x l2 l3 H IH]; intros l1 H12.
  - exact H12.
  - apply subseq_skip, IH, H12.
  - inversion H12; subst.
    + apply subseq_skip, IH. assumption.
    + apply subseq_take, IH. assumption.
Qed.

Lemma gets_app_list t events :
  gets (t ++ events) = (gets t + List.length (filter is_get events))%nat.
Proof. unfold gets. rewrite filter_app, length_app. reflexivity. Qed.

(** The scan followed by the enrichment, in full. *)
Lemma scan_stocks_eq w :
  exists stocks w1,
    get_initial_stocks E w = (Ok stocks, w1)
    /\ scan_stocks E w
       = (Ok (outcomes E (tickers (trace w1)) stocks),
          {| self := self w1;
             trace := trace w1 ++ enrich_events E (tickers (trace w1)) stocks |}).
Proof.
  destruct (get_initial_stocks_total E w) as [stocks Hs].
  unfold scan_stocks, bind.
  destruct (get_initial_stocks E w) as [r w1]. cbn [fst] in Hs. subst r.
  exists stocks, w1. split; [reflexivity|].
  unfold enrich_stock_data. rewrite enrich_loop_full. reflexivity.
Qed.


(** [X19] End to end, on a snapshot that is an array: the records
    [scan_stocks] returns carry, in the order of the snapshot, symbols of
    quotes that pass the near-low test. *)
Theorem scan_stocks_sound w quotes w' :
  _make_api_call E (quote_url E (self w)) 3 w = (Ok (PList quotes), w') ->
  exists records,
    fst (scan_stocks E w) = Ok records
    /\ subseq (map Symbol records) (map (fun q => symbol (candidate_of q)) quotes)
    /\ Forall (fun r => exists q,
                  In q quotes /\ is_candidate q = true /\
                  Symbol r = symbol (candidate_of q)) records.
Proof.
  intros Hcall.
  destruct (scan_stocks_eq w) as [stocks [w1 [Hg Hs]]].
  assert (Hcase : stocks = map candidate_of (filter is_candidate quotes) \/ stocks = []).
  { destruct (get_initial_stocks_cases E w quotes w' Hcall) as [H | H];
      rewrite H in Hg; injection Hg as <- <-; [left | right]; reflexivity. }
  assert (Hw : w1 = w').
  { destruct (get_initial_stocks_cases E w quotes w' Hcall) as [H | H];
      rewrite H in Hg; injection Hg as <- <-; reflexivity. }
  subst w1.
  assert (Hsub : subseq stocks (map candidate_of quotes)).
  { destruct Hcase as [-> | ->]; [apply subseq_map, subseq_filter | apply subseq_nil_l]. }
  rewrite Hs. cbn [fst]. eexists. split; [reflexivity|]. split.
  - eapply subseq_trans; [apply outcomes_subseq|].
    rewrite <- (map_map candidate_of symbol). apply subseq_map. exact Hsub.
  - destruct (enrich_stock_data_spec E stocks w') as [records [Hr Hall]].
    unfold enrich_stock_data in Hr. rewrite enrich_loop_full in Hr.
    cbn [fst app] in Hr. injection Hr as <-.
    eapply Forall_impl; [|exact Hall].
    intros r [c [answer [Hin Ho]]].
    apply enrich_outcome_symbol in Ho.
    destruct Hcase as [-> | ->]; [|destruct Hin].
    apply in_map_iff in Hin as [q [<- Hq]]. apply filter_In in Hq as [Hq Hcand].
    exists q. repeat split; assumption.
Qed.

Lemma check_api_quota_world w :
  exists b,
    check_api_quota E w
      = (Ok b, {| self := self w; trace := trace w ++ [EvGet (quota_url E (self w)) None] |}).
Proof.
  destruct w as [s t]. unfold check_api_quota, check_api_quota_body. run.
  destruct (requests_get E (gets t) (quota_url E s) None) as [resp|e];
    [|eexists; reflexivity].
  destruct (json resp) as [data|e]; [|eexists; reflexivity].
  destruct (py_contains (lit "remainingCalls") data) as [[|]|e]; try (eexists; reflexivity).
  destruct (py_getitem data (lit "remainingCalls")) as [v|e]; [|eexists; reflexivity].
  destruct (py_gt v (NInt 5)); eexists; reflexivity.
Qed.

(** [main] after the gate, by cases on the gate and on the records. *)
Lemma main_body_eq w :
  exists b w1,
    check_api_quota E w = (Ok b, w1)
    /\ main_body E w
       = if b then
           match scan_stocks E w1 with
           | (Ok (r :: rest), w2) =>
               (Ok tt, {| self := self w2;
                          trace := trace w2
                                   ++ [delivery E (r :: rest) (api_calls (self w2))] |})
           | (_, w2) => (Ok tt, w2)
           end
         else (Ok tt, w1).
Proof.
  destruct (check_api_quota_world w) as [b Hq].
  exists b, {| self := self w; trace := trace w ++ [EvGet (quota_url E (self w)) None] |}.
  split; [exact Hq|].
  unfold main_body, bind at 1. rewrite Hq.
  destruct b; cbn [negb]; [|reflexivity].
  unfold try_except, bind.
  destruct (scan_stocks E _) as [[[|r rest]|e] w2]; try reflexivity.
  unfold get_self. rewrite send_whatsapp_eq. reflexivity.
Qed.

(** [X20] [main] never raises: every run ends normally. *)
Theorem main_never_raises t : fst (main E t) = Ok tt.
Proof.
  unfold main. destruct (main_body_eq {| self := __init__ E; trace := t |})
    as [b [w1 [_ ->]]].
  destruct b; [|reflexivity].
  destruct (scan_stocks E w1) as [[[|r rest]|e] w2]; reflexivity.
Qed.

(** [X21] When the quota gate answers [False], the run stops there: the
    quota request is all that happened, and the counter is still 0. *)
Theorem main_stops_at_closed_gate t :
  fst (check_api_quota E {| self := __init__ E; trace := t |}) = Ok false ->
  main E t
    = (Ok tt,
       {| self := __init__ E;
          trace := t ++ [EvGet (quota_url E (__init__ E)) None] |}).
Proof.
  intros Hq. unfold main.
  destruct (main_body_eq {| self := __init__ E; trace := t |}) as [b [w1 [Hc ->]]].
  destruct (check_api_quota_world {| self := __init__ E; trace := t |}) as [b' Hw].
  rewrite Hw in Hc, Hq. cbn [fst] in Hq. injection Hq as ->.
  injection Hc as <- <-. reflexivity.
Qed.

(** [X22] The account of a run.  The counter ends between 0 and 3; the HTTP
    requests of the run are the quota request plus one per counted call, so
    at most four, and the quota request is the one the counter leaves out;
    at most one message is sent, only for a list of records that is not
    empty, and the number of calls it reports is the final counter, at
    least 1. *)
Theorem main_account t :
  0 <= api_calls (self (snd (main E t))) <= 3
  /\ Z.of_nat (gets (trace (snd (main E t))))
       = Z.of_nat (gets t) + 1 + api_calls (self (snd (main E t)))
  /\ (filter is_twilio (trace (snd (main E t))) = filter is_twilio t
       \/ exists records,
            records <> [] /\
            1 <= api_calls (self (snd (main E t))) /\
            filter is_twilio (trace (snd (main E t)))
              = filter is_twilio t
                ++ [delivery E records (api_calls (self (snd (main E t))))]).
Proof.
  unfold main. set (w0 := {| self := __init__ E; trace := t |}).
  destruct (main_body_eq w0) as [b [w1 [Hc ->]]].
  destruct (check_api_quota_world w0) as [b' Hw]. rewrite Hw in Hc.
  injection Hc as <- <-. cbn [self trace w0].
  set (w1 := {| self := __init__ E; trace := t ++ [EvGet (quota_url E (__init__ E)) None] |}).
  assert (Hg1 : gets (trace w1) = S (gets t))
    by (unfold w1; cbn [trace]; rewrite gets_app; cbn [is_get]; lia).
  assert (Hd1 : filter is_twilio (trace w1) = filter is_twilio t)
    by (unfold w1; cbn [trace]; rewrite filter_app; cbn [filter is_twilio];
        apply app_nil_r).
  destruct b'.
  2:{ cbn [snd]. unfold w1. cbn [self trace __init__ api_calls].
      fold w1. change (trace w1) with (t ++ [EvGet (quota_url E (__init__ E)) None]) in *.
      split; [lia|]. split; [lia|]. left. exact Hd1. }
  destruct (scan_stocks_eq w1) as [stocks [wa [Hgi Hs]]].
  rewrite Hs.
  rewrite get_initial_stocks_eq in Hgi.
  destruct (attempts_account E (quote_url E (self w1)) 3 (Z.to_nat 3) 0 w1)
    as [n [Hn [Hself [Hok Hacc]]]].
  destruct (attempts_trace (quote_url E (self w1)) 3 (Z.to_nat 3) 0 w1)
    as [ev [Htr Hnet]].
  fold (_make_api_call E (quote_url E (self w1)) 3 w1) in Hself, Hok, Hacc, Htr.
  assert (Hacc' : Z.of_nat (gets (trace (snd (_make_api_call E (quote_url E (self w1)) 3 w1))))
                  = Z.of_nat (gets (trace w1)) + n).
  { destruct Hacc as [[Hg _] | [_ [H1 [_ [Hm _]]]]]; [exact Hg|].
    unfold w1 in Hm. cbn [self __init__ api_calls max_daily_calls] in Hm. lia. }
  assert (Hwa : self wa = bump n (__init__ E)
                /\ Z.of_nat (gets (trace wa)) = Z.of_nat (gets t) + 1 + n
                /\ filter is_twilio (trace wa) = filter is_twilio t
                /\ (stocks <> [] -> 1 <= n)).
  { destruct (_make_api_call E (quote_url E (self w1)) 3 w1) as [[v|e] wb];
      cbn [fst snd] in *; injection Hgi as Hst <-.
    - split; [exact Hself|]. split; [lia|].
      split; [rewrite Htr, filter_app, (proj1 (net_events_filter ev Hnet)), app_nil_r;
              exact Hd1|].
      intros _. apply (Hok v eq_refl).
    - split; [exact Hself|]. split; [lia|].
      split; [rewrite Htr, filter_app, (proj1 (net_events_filter ev Hnet)), app_nil_r;
              exact Hd1|].
      intros Hne. destruct (Hne (eq_sym Hst)). }
  destruct Hwa as [Hsa [Hga [Hda Hne]]].
  destruct (enrich_events_shape E (tickers (trace wa)) stocks) as [_ [Heg [Hew _]]].
  assert (Hg2 : Z.of_nat (gets (trace wa ++ enrich_events E (tickers (trace wa)) stocks))
                = Z.of_nat (gets t) + 1 + n)
    by (rewrite gets_app_list, Heg; cbn [List.length]; lia).
  assert (Hd2 : filter is_twilio (trace wa ++ enrich_events E (tickers (trace wa)) stocks)
                = filter is_twilio t)
    by (rewrite filter_app, Hew, app_nil_r; exact Hda).
  assert (Hcalls : api_calls (bump n (__init__ E)) = n)
    by (unfold bump, __init__; cbn [api_calls]; lia).
  destruct (outcomes E (tickers (trace wa)) stocks) as [|r rest] eqn:Hout;
    cbn [snd self trace]; rewrite Hsa, Hcalls.
  - split; [lia|]. split; [exact Hg2|]. left. exact Hd2.
  - assert (Hst : stocks <> []).
    { intros ->. cbn [outcomes] in Hout. discriminate. }
    specialize (Hne Hst).
    split; [lia|]. split.
    + rewrite gets_app. cbn [is_get delivery]. lia.
    + right. exists (r :: rest). split; [discriminate|]. split; [exact Hne|].
      rewrite filter_app, Hd2. reflexivity.
Qed.

End Orchestration.

(* ================================================================= *)
(** ** From the scan to the enricher *)

Section ScanThenEnrich.

Variable E : Env.

(** A truthy number is not zero. *)
Lemma truthy_number yl b :
  as_num yl = Some b -> truthy yl = true ->
  match b with
  | NInt y => y <> 0
  | NFloat f => is_zero f = false
  end.
Proof.
  destruct yl as [|[|]|z|f| | |]; cbn [as_num truthy]; intros Hb Ht;
    try discriminate; injection Hb as <-; cbn [Z.b2z].
  - lia.
  - apply negb_true_iff, Z.eqb_neq in Ht. exact Ht.
  - apply negb_true_iff in Ht. exact Ht.
Qed.

(** Dividing by a truthy number gives a float or overflows. *)
Lemma py_truediv_by_truthy p yl a b :
  as_num p = Some a -> as_num yl = Some b -> truthy yl = true ->
  (exists ratio, py_truediv p yl = Ok ratio) \/ py_truediv p yl = Raise OverflowError.
Proof.
  intros Ha Hb Ht. pose proof (truthy_number yl b Hb Ht) as Hnz.
  unfold py_truediv. rewrite Ha, Hb.
  destruct a as [x|f], b as [y|g]; cbn [to_float rbind].
  - replace (y =? 0) with false by (symmetry; apply Z.eqb_neq; exact Hnz).
    destruct (is_inf _); [right | left; eexists]; reflexivity.
  - unfold float_of_int. destruct (is_inf (Z2SF x)); cbn [rbind]; [right; reflexivity|].
    rewrite Hnz. left. eexists. reflexivity.
  - unfold float_of_int. destruct (is_inf (Z2SF y)); cbn [rbind]; [right; reflexivity|].
    rewrite (Z2SF_nonzero y Hnz). left. eexists. reflexivity.
  - rewrite Hnz. left. eexists. reflexivity.
Qed.

Lemma py_round2_number v a : as_num v = Some a -> exists r, py_round2 v = Ok r.
Proof.
  destruct v; cbn [as_num py_round2]; intros H; try discriminate; eexists; reflexivity.
Qed.

(** [X23] What the scan guarantees to the enricher.  For every candidate the
    scan returns, rounding the price and the year low succeeds, and the
    distance from the low is computed or raises [OverflowError] (an integer
    too large for a float): the division never raises
    [ZeroDivisionError], because the scan keeps truthy values only. *)
Theorem scanned_candidates_divide w quotes w' :
  _make_api_call E (quote_url E (self w)) 3 w = (Ok (PList quotes), w') ->
  exists stocks,
    fst (get_initial_stocks E w) = Ok stocks
    /\ Forall (fun c =>
         (exists current, py_round2 (price c) = Ok current) /\
         (exists low, py_round2 (yearLow c) = Ok low) /\
         ((exists d, distance_from_low (price c) (yearLow c) = Ok d) \/
          distance_from_low (price c) (yearLow c) = Raise OverflowError)) stocks.
Proof.
  intros Hcall.
  destruct (get_initial_stocks_cases E w quotes w' Hcall) as [H | H]; rewrite H; cbn [fst].
  2:{ exists []. split; [reflexivity | constructor]. }
  eexists. split; [reflexivity|].
  apply Forall_forall. intros c Hin.
  apply in_map_iff in Hin as [q [<- Hq]]. apply filter_In in Hq as [_ Hcand].
  apply is_candidate_fields in Hcand as [_ [Hty [a [limit [Ha [Hlim _]]]]]].
  assert (Hb : exists b, as_num (yearLow (candidate_of q)) = Some b).
  { unfold float_binop in Hlim.
    destruct (as_num (yearLow (candidate_of q))) as [b|]; [eexists; reflexivity|].
    discriminate. }
  destruct Hb as [b Hb].
  split; [eapply py_round2_number; exact Ha|].
  split; [eapply py_round2_number; exact Hb|].
  unfold distance_from_low.
  destruct (py_truediv_by_truthy _ _ a b Ha Hb Hty) as [[ratio ->] | ->]; cbn [rbind].
  - left. unfold float_binop. cbn [as_num to_float rbind].
    rewrite float_of_int_1. cbn [rbind]. rewrite float_of_int_100. cbn [rbind].
    eexists. reflexivity.
  - right. reflexivity.
Qed.

End ScanThenEnrich.

(* ================================================================= *)
(** ** The statements above on the sample environments *)

Lemma make_api_call_without_retries_witness :
  0 <= 0
  /\ _make_api_call Sample.env_up Sample.url 0 (Sample.world 7)
     = (Raise unknown_error, Sample.world 7).
Proof.
  split; [lia|].
  apply (make_api_call_without_retries Sample.env_up Sample.url 0 (Sample.world 7)). lia.
Defined.

Lemma make_api_call_first_attempt_witness :
  _make_api_call Sample.env_up Sample.url 3 (Sample.world 0)
    = (Ok Sample.snapshot,
       {| self := Sample.scanner 1;
          trace := [EvGet Sample.url (Some 10); EvSleep (PFloat (dec 2 1))] |}).
Proof.
  apply (make_api_call_first_attempt Sample.env_up Sample.url 3 (Sample.world 0)
           Sample.snapshot).
  - lia.
  - cbn. lia.
  - exists (Sample.ok_response Sample.snapshot). repeat split.
Defined.

Lemma make_api_call_other_exception_witness :
  fst (_make_api_call Cases.env_bad_json Sample.url 3 (Sample.world 0)) = Raise ValueError
  /\ self (snd (_make_api_call Cases.env_bad_json Sample.url 3 (Sample.world 0)))
     = Sample.scanner 1
  /\ gets (trace (snd (_make_api_call Cases.env_bad_json Sample.url 3 (Sample.world 0))))
     = 1%nat.
Proof.
  apply (make_api_call_other_exception Cases.env_bad_json Sample.url 3 (Sample.world 0)
           ValueError).
  - lia.
  - cbn. lia.
  - reflexivity.
  - right. right. eexists. repeat split.
Defined.

Lemma make_api_call_schedule_witness :
  snd (_make_api_call Sample.env_down Sample.url 3 (Sample.world 0))
    = {| self := Sample.scanner 3;
         trace := [EvGet Sample.url (Some 10); EvSleep (PInt 1);
                   EvGet Sample.url (Some 10); EvSleep (PInt 2);
                   EvGet Sample.url (Some 10)] |}
  /\ snd (_make_api_call Sample.env_flaky Sample.url 3 (Sample.world 0))
     = {| self := Sample.scanner 3;
          trace := [EvGet Sample.url (Some 10); EvSleep (PInt 1);
                    EvGet Sample.url (Some 10); EvSleep (PInt 2);
                    EvGet Sample.url (Some 10);
                    EvSleep (PFloat (dec 6000000000000001 16))] |}.
Proof.
  split.
  - apply (proj1 (make_api_call_schedule Sample.env_down Sample.url (Sample.world 0)
                    (lit "timed out") (lit "timed out")
                    ltac:(cbn; lia) (or_introl eq_refl) (or_introl eq_refl))
                 (lit "timed out")).
    left. reflexivity.
  - apply (proj2 (make_api_call_schedule Sample.env_flaky Sample.url (Sample.world 0)
                    (lit "timed out") (lit "timed out")
                    ltac:(cbn; lia) (or_introl eq_refl) (or_introl eq_refl))
                 Sample.snapshot).
    exists (Sample.ok_response Sample.snapshot). repeat split.
Defined.

Lemma check_api_quota_integer_witness :
  check_api_quota Sample.env_up (Sample.world 0)
    = (Ok (5 <? 200),
       {| self := Sample.scanner 0;
          trace := [EvGet (quota_url Sample.env_up (Sample.scanner 0)) None] |}).
Proof.
  apply (check_api_quota_integer Sample.env_up (Sample.world 0)
           (Sample.ok_response (PDict [(lit "remainingCalls", PInt 200)]))
           [(lit "remainingCalls", PInt 200)] 200); reflexivity.
Defined.

Lemma get_initial_stocks_not_a_list_witness :
  get_initial_stocks Cases.env_error_object (Sample.world 0)
    = (Ok [],
       {| self := Sample.scanner 1;
          trace := [EvGet Sample.url (Some 10); EvSleep (PFloat (dec 2 1))] |}).
Proof.
  apply (get_initial_stocks_not_a_list Cases.env_error_object (Sample.world 0)
           Cases.error_object).
  - vm_compute. reflexivity.
  - discriminate.
Defined.

Lemma sample_snapshot_call :
  _make_api_call Sample.env_up (quote_url Sample.env_up (self (Sample.world 0))) 3
                 (Sample.world 0)
    = (Ok (PList [Sample.abc; Sample.xyz]), Cases.after_snapshot).
Proof. vm_compute. reflexivity. Defined.

Lemma get_initial_stocks_sound_witness :
  exists stocks,
    get_initial_stocks Sample.env_up (Sample.world 0) = (Ok stocks, Cases.after_snapshot)
    /\ (stocks = map candidate_of (filter is_candidate [Sample.abc; Sample.xyz])
        \/ stocks = [])
    /\ subseq stocks (map candidate_of [Sample.abc; Sample.xyz])
    /\ Forall (fun c =>
         (exists q, In q [Sample.abc; Sample.xyz] /\ c = candidate_of q) /\
         truthy (price c) = true /\ truthy (yearLow c) = true /\
         exists a limit,
           as_num (price c) = Some a /\
           float_binop fmul (yearLow c) (PFloat (dec 102 2)) = Ok limit /\
           num_leb a (NFloat limit) = true) stocks.
Proof.
  exact (get_initial_stocks_sound Sample.env_up (Sample.world 0)
           [Sample.abc; Sample.xyz] Cases.after_snapshot sample_snapshot_call).
Defined.

Lemma scan_stocks_sound_witness :
  exists records,
    fst (scan_stocks Sample.env_up (Sample.world 0)) = Ok records
    /\ subseq (map Symbol records)
              (map (fun q => symbol (candidate_of q)) [Sample.abc; Sample.xyz])
    /\ Forall (fun r => exists q,
                  In q [Sample.abc; Sample.xyz] /\ is_candidate q = true /\
                  Symbol r = symbol (candidate_of q)) records.
Proof.
  exact (scan_stocks_sound Sample.env_up (Sample.world 0)
           [Sample.abc; Sample.xyz] Cases.after_snapshot sample_snapshot_call).
Defined.

Lemma scanned_candidates_divide_witness :
  exists stocks,
    fst (get_initial_stocks Sample.env_up (Sample.world 0)) = Ok stocks
    /\ Forall (fun c =>
         (exists current, py_round2 (price c) = Ok current) /\
         (exists low, py_round2 (yearLow c) = Ok low) /\
         ((exists d, distance_from_low (price c) (yearLow c) = Ok d) \/
          distance_from_low (price c) (yearLow c) = Raise OverflowError)) stocks.
Proof.
  exact (scanned_candidates_divide Sample.env_up (Sample.world 0)
           [Sample.abc; Sample.xyz] Cases.after_snapshot sample_snapshot_call).
Defined.

Lemma main_stops_at_closed_gate_witness :
  fst (check_api_quota Sample.env_down {| self := __init__ Sample.env_down; trace := [] |})
    = Ok false
  /\ main Sample.env_down []
     = (Ok tt,
        {| self := Sample.scanner 0;
           trace := [EvGet (quota_url Sample.env_down (Sample.scanner 0)) None] |}).
Proof.
  assert (H : fst (check_api_quota Sample.env_down
                     {| self := __init__ Sample.env_down; trace := [] |}) = Ok false)
    by reflexivity.
  split; [exact H|].
  exact (main_stops_at_closed_gate Sample.env_down [] H).
Defined.

Lemma make_api_call_ceiling_mid_retry_witness :
  _make_api_call Sample.env_down Sample.url 3 (Sample.world 249)
    = (Raise quota_error,
       {| self := Sample.scanner 251;
          trace := [EvGet Sample.url (Some 10); EvSleep (PInt 1)] |}).
Proof.
  apply (make_api_call_ceiling_mid_retry Sample.env_down Sample.url 3 (Sample.world 249)
           (lit "timed out")).
  - lia.
  - reflexivity.
  - left. reflexivity.
Defined.
